(** * keppy.estimate: the parameter-estimation engine of [OrbitalParams]

    A shallow embedding of [src/keppy/estimate.py].

    Modelling conventions.
    - A Python [float] is a real number ([R]); rounding, overflow and
      [nan] are not modelled.  The two non-finite values the code itself
      manufactures ([-np.inf] in [flat] and [lnprob]) are kept apart in
      the type [pyfloat].  This model carries the statements that relate
      runs of the code to each other.  What [lnlike] computes is stated
      on a second model whose numbers are IEEE 754 binary64.
    - 1-D numpy arrays are [list R]; the element-wise operators follow
      numpy's broadcasting rule for one axis (equal lengths, or one side
      of length 1) and raise [ValueError] otherwise.
    - Dynamically typed arguments ([n_datasets], [bounds], [bounds_vz])
      are values of [pyobj].
    - A method runs in the monad [M]: it reads (and could write) the
      object [self], appends to a trace of the calls it makes to the
      external collaborators, and either returns or raises.
    - The external orbit model ([keppy.orbit.BinarySystem(...).get_rvs])
      and the external minimiser ([scipy.optimize.minimize]) are section
      variables. *)

From Stdlib Require Import PrimFloat.
From Stdlib Require Import String.
From Stdlib Require Import Reals Lra Lia ZArith List Bool.
Import ListNotations.

Set Implicit Arguments.
Local Open Scope R_scope.

(** ** Python values, exceptions and results *)

(** The values a caller can hand to the dynamically typed parameters. *)
#[warnings="-register-all"]
Inductive pyobj : Type :=
| PyInt (z : Z)
| PyBool (b : bool)
| PyFloat (x : R)
| PyNone
| PyTuple (items : list pyobj).

(** The exceptions the code can raise: the three built-in ones it raises
    itself or through indexing, typing and broadcasting, and whatever the
    orbit model raises. *)
Inductive exn : Type :=
| TypeError
| ValueError
| IndexError
| ModelError (code : nat).

Inductive Result (A : Type) : Type :=
| Ok (a : A)
| Raise (e : exn).
Arguments Raise {A} e.

(** The error taxonomy: a wrong type or sign of the dataset count and a
    guess of the wrong length are reported as [TypeError] or
    [ValueError]; these two form the class of configuration errors. *)
Definition ConfigurationError (e : exn) : Prop :=
  e = TypeError \/ e = ValueError.

Definition rbind {A B} (r : Result A) (k : A -> Result B) : Result B :=
  match r with
  | Ok a => k a
  | Raise e => Raise e
  end.

(** [isinstance(o, int)]: [bool] is a subclass of [int]. *)
Definition isinstance_int (o : pyobj) : option Z :=
  match o with
  | PyInt z => Some z
  | PyBool b => Some (if b then 1%Z else 0%Z)
  | _ => None
  end.

(** The numeric value of an object in a comparison with a float. *)
Definition as_number (o : pyobj) : option R :=
  match o with
  | PyInt z => Some (IZR z)
  | PyBool b => Some (if b then 1 else 0)
  | PyFloat x => Some x
  | _ => None
  end.

(** [l[i]] on a sequence. *)
Definition getitem {A} (l : list A) (i : nat) : Result A :=
  match nth_error l i with
  | Some a => Ok a
  | None => Raise IndexError
  end.

(** [o[i]] on an object: only tuples can be subscripted. *)
Definition subscript (o : pyobj) (i : nat) : Result pyobj :=
  match o with
  | PyTuple items => getitem items i
  | _ => Raise TypeError
  end.

Definition Rltb (x y : R) : bool :=
  if Rlt_dec x y then true else false.

(** [o < x] for an object [o] and a float [x]. *)
Definition py_lt_l (o : pyobj) (x : R) : Result bool :=
  match as_number o with
  | Some a => Ok (Rltb a x)
  | None => Raise TypeError
  end.

(** [x < o] for a float [x] and an object [o]. *)
Definition py_lt_r (x : R) (o : pyobj) : Result bool :=
  match as_number o with
  | Some b => Ok (Rltb x b)
  | None => Raise TypeError
  end.

(** A float as the code produces it: finite, or one of the infinities. *)
Inductive pyfloat : Type :=
| Fin (x : R)
| NegInf
| PosInf
| NaN.

Definition isfinite (x : pyfloat) : bool :=
  match x with
  | Fin _ => true
  | _ => false
  end.

(** [x + y] where [y] is finite. *)
Definition pyfloat_add_fin (x : pyfloat) (y : R) : pyfloat :=
  match x with
  | Fin a => Fin (a + y)
  | other => other
  end.

(** ** numpy on one axis *)

Module np.

Definition pi : R := PI.

(** Element-wise binary operator with broadcasting. *)
Definition binop (op : R -> R -> R) (a b : list R) : Result (list R) :=
  if Nat.eqb (length a) (length b) then
    Ok (map (fun p => op (fst p) (snd p)) (combine a b))
  else
    match a, b with
    | [x], _ => Ok (map (fun y => op x y) b)
    | _, [y] => Ok (map (fun x => op x y) a)
    | _, _ => Raise ValueError
    end.

Definition sub := binop Rminus.
Definition mul := binop Rmult.
Definition add := binop Rplus.

(** [a ** 2]. *)
Definition square (a : list R) : list R := map (fun x => x ^ 2) a.

(** [c / a] for a scalar [c]. *)
Definition rdiv (c : R) (a : list R) : list R := map (fun x => c / x) a.

Definition log (a : list R) : list R := map ln a.

Definition sum (a : list R) : R := fold_left Rplus a 0.

End np.

(** ** The estimator object *)

Record OrbitalParams : Type := {
  n_datasets : Z;
  t : list (list R);
  rv : list (list R);
  rv_err : list (list R);
  guess : list R;
  bounds : list pyobj
}.

(** The default of the keyword argument [bounds]. *)
Definition default_bounds : list pyobj :=
  [ PyTuple [PyInt (-4); PyInt 4];
    PyTuple [PyInt (-4); PyInt 4];
    PyTuple [PyInt 0; PyInt 10000];
    PyTuple [PyInt 0; PyInt 360];
    PyTuple [PyInt (-4); PyFloat (-4.3e-5)] ].

(** The default of the keyword argument [n_datasets]. *)
Definition default_n_datasets : pyobj := PyInt 1.

(** [bounds + bounds_vz] for a tuple [bounds]. *)
Definition tuple_concat (a : list pyobj) (b : pyobj) : Result (list pyobj) :=
  match b with
  | PyTuple items => Ok (a ++ items)
  | _ => Raise TypeError
  end.

(** [OrbitalParams.__init__]. *)
Definition __init__ (t_ rv_ rv_err_ : list (list R)) (guess_ : list R)
    (bounds_vz : pyobj) (bounds_ : list pyobj) (n_datasets_ : pyobj)
  : Result OrbitalParams :=
  match isinstance_int n_datasets_ with
  | None => Raise TypeError
  | Some n =>
    if (n <? 0)%Z then Raise ValueError
    else
      if (n =? 1)%Z then
        if negb (Z.eqb (Z.of_nat (length guess_)) (5 + n)) then
          Raise ValueError
        else
          Ok {| n_datasets := n; t := t_; rv := rv_; rv_err := rv_err_;
                guess := guess_;
                bounds := bounds_ ++ [bounds_vz] |}
      else
        if negb (Z.eqb (Z.of_nat (length guess_)) (5 + n)) then
          Raise ValueError
        else
          rbind (tuple_concat bounds_ bounds_vz) (fun b =>
          Ok {| n_datasets := n; t := t_; rv := rv_; rv_err := rv_err_;
                guess := guess_;
                bounds := b |})
  end.

(** ** External collaborators and the method monad *)

(** One call of the orbit model:
    [BinarySystem(log_k, log_period, t0, w, log_e, vz).get_rvs(ts, nt)]. *)
Record OrbitCall : Type := {
  log_k : R;
  log_period : R;
  t0 : R;
  w : R;
  log_e : R;
  vz : R;
  ts : list R;
  nt : nat
}.

(** What [scipy.optimize.minimize] returns. *)
Record OptimizeResult : Type := {
  x : list R;
  nit : Z;
  success : bool;
  message : string
}.

(** The lines [ml_orbit] prints when [disp] is [True]. *)
Inductive Report : Type :=
| IterationsPerformed (n : Z)
| MinimizationSuccessful (b : bool)
| CauseOfTermination (msg : string).

Inductive Event : Type :=
| EvOrbit (c : OrbitCall)
| EvPrint (line : Report).

(** The minimiser seen from its caller: it evaluates the objective at
    points of its choice, each choice depending on the values seen so
    far, and finally reports a result. *)
Inductive Search : Type :=
| Stop (res : OptimizeResult)
| Evaluate (at_ : list R) (next : R -> Search).

Record State : Type := {
  self : OrbitalParams;
  trace : list Event
}.

Definition M (A : Type) : Type := State -> Result A * State.

Definition ret {A} (a : A) : M A := fun s => (Ok a, s).

Definition bind {A B} (m : M A) (k : A -> M B) : M B :=
  fun s =>
    match m s with
    | (Ok a, s') => k a s'
    | (Raise e, s') => (Raise e, s')
    end.

Definition lift {A} (r : Result A) : M A := fun s => (r, s).

Definition get_self : M OrbitalParams := fun s => (Ok (self s), s).

Definition emit (e : Event) : M unit :=
  fun s => (Ok tt, {| self := self s; trace := trace s ++ [e] |}).

Declare Scope py_scope.
Delimit Scope py_scope with py.
Notation "x <- m ;; k" := (bind m (fun x => k))
  (at level 61, m at next level, right associativity) : py_scope.
Notation "m ;;; k" := (bind m (fun _ => k))
  (at level 61, right associativity) : py_scope.
Local Open Scope py_scope.

(** [for a in l: acc = body(a, acc)]. *)
Fixpoint for_each {A B} (l : list A) (acc : B) (body : A -> B -> M B)
  : M B :=
  match l with
  | [] => ret acc
  | a :: l' => acc' <- body a acc ;; for_each l' acc' body
  end.

(** [[f(a) for a in l]]. *)
Fixpoint comprehension {A B} (l : list A) (f : A -> M B) : M (list B) :=
  match l with
  | [] => ret []
  | a :: l' => b <- f a ;; bs <- comprehension l' f ;; ret (b :: bs)
  end.

(** [range(n)]. *)
Definition range (n : Z) : list nat := seq 0 (Z.to_nat n).

(** [all(l)]. *)
Definition all (l : list bool) : bool := forallb (fun b => b) l.

Section Estimator.

(** [keppy.orbit]: deterministic, may raise. *)
Variable get_rvs : OrbitCall -> Result (list R).

(** [scipy.optimize.minimize(fun, x0, method, bounds, options)], as the
    search it performs for given [x0], [method], [bounds], [maxiter]
    and [disp]. *)
Variable minimize :
  list R -> string -> list pyobj -> Z -> bool -> Search.

Definition BinarySystem_get_rvs (c : OrbitCall) : M (list R) :=
  emit (EvOrbit c) ;;; lift (get_rvs c).

(** [OrbitalParams.lnlike]. *)
Definition lnlike (theta : list R) : M R :=
  this <- get_self ;;
  sum_like <- for_each (range (n_datasets this)) 0 (fun i sum_like =>
    ti <- lift (getitem (t this) i) ;;
    let nt_ := length ti in
    th0 <- lift (getitem theta 0) ;;
    th1 <- lift (getitem theta 1) ;;
    th2 <- lift (getitem theta 2) ;;
    th3 <- lift (getitem theta 3) ;;
    th4 <- lift (getitem theta 4) ;;
    th5i <- lift (getitem theta (5 + i)) ;;
    model <- BinarySystem_get_rvs
               {| log_k := th0; log_period := th1; t0 := th2; w := th3;
                  log_e := th4; vz := th5i; ts := ti; nt := nt_ |} ;;
    erri <- lift (getitem (rv_err this) i) ;;
    let inv_sigma2 := np.rdiv 1 (np.square erri) in
    rvi <- lift (getitem (rv this) i) ;;
    resid <- lift (np.sub rvi model) ;;
    chi2 <- lift (np.mul (np.square resid) inv_sigma2) ;;
    terms <- lift (np.add chi2
                     (np.log (np.rdiv (2 * np.pi) inv_sigma2))) ;;
    ret (sum_like + np.sum terms)) ;;
  ret (sum_like * -0.5).

(** The test [self.bounds[i][0] < theta[i] < self.bounds[i][1]]: a
    chained comparison, whose right half is evaluated only when the
    left half holds. *)
Definition in_bounds (this : OrbitalParams) (theta : list R) (i : nat)
  : M bool :=
  bi <- lift (getitem (bounds this) i) ;;
  lo <- lift (subscript bi 0) ;;
  thi <- lift (getitem theta i) ;;
  left_ok <- lift (py_lt_l lo thi) ;;
  if left_ok then
    bi' <- lift (getitem (bounds this) i) ;;
    hi <- lift (subscript bi' 1) ;;
    lift (py_lt_r thi hi)
  else ret false.

(** [OrbitalParams.flat]. *)
Definition flat (theta : list R) : M pyfloat :=
  this <- get_self ;;
  params <- comprehension (seq 0 (length theta)) (in_bounds this theta) ;;
  if all params then ret (Fin 0) else ret NegInf.

(** [OrbitalParams.lnprob]. *)
Definition lnprob (theta : list R) : M pyfloat :=
  lp <- flat theta ;;
  if negb (isfinite lp) then ret NegInf
  else l <- lnlike theta ;; ret (pyfloat_add_fin lp l).

(** Running the minimiser against an objective. *)
Fixpoint run_search (f : list R -> M R) (s : Search) : M OptimizeResult :=
  match s with
  | Stop res => ret res
  | Evaluate at_ next => v <- f at_ ;; run_search f (next v)
  end.

(** The objective [nll] of [ml_orbit]: the lambda that negates
    [self.lnlike]. *)
Definition nll (theta : list R) : M R :=
  l <- lnlike theta ;; ret (- l).

(** [OrbitalParams.ml_orbit]. *)
Definition ml_orbit (maxiter : Z) (disp : bool) : M (list R) :=
  this <- get_self ;;
  result <- run_search nll
              (minimize (guess this) "TNC"%string (bounds this)
                        maxiter disp) ;;
  (if disp then
     emit (EvPrint (IterationsPerformed (nit result))) ;;;
     emit (EvPrint (MinimizationSuccessful (success result))) ;;;
     emit (EvPrint (CauseOfTermination (message result)))
   else ret tt) ;;;
  ret (x result).

End Estimator.

(** ** Reference definitions, following the specification's wording *)

(** [sum_upto n f] is the sum of [f 0 .. f (n-1)]. *)
Fixpoint sum_upto (n : nat) (f : nat -> R) : R :=
  match n with
  | O => 0
  | S n' => sum_upto n' f + f n'
  end.

(** The summand of the Gaussian log-likelihood at sample [k]:
    [(rv[k] - model[k])^2 / rv_err[k]^2 + ln(2 pi rv_err[k]^2)]. *)
Definition gaussian_term (rv_i model_i rv_err_i : list R) (k : nat) : R :=
  (nth k rv_i 0 - nth k model_i 0) ^ 2 / (nth k rv_err_i 0) ^ 2
  + ln (2 * PI * (nth k rv_err_i 0) ^ 2).

(** The contribution of dataset [i], given the model velocities. *)
Definition dataset_term (this : OrbitalParams) (model_i : list R) (i : nat)
  : R :=
  sum_upto (length (nth i (rv this) []))
    (gaussian_term (nth i (rv this) []) model_i (nth i (rv_err this) [])).

(** The orbit-model call the specification prescribes for dataset [i]:
    the orbital parameters [theta[0..4]], the offset [theta[5+i]] as the
    systemic velocity, and the times of that dataset. *)
Definition orbit_call_spec (this : OrbitalParams) (theta : list R) (i : nat)
  : OrbitCall :=
  {| log_k := nth 0 theta 0; log_period := nth 1 theta 0;
     t0 := nth 2 theta 0; w := nth 3 theta 0; log_e := nth 4 theta 0;
     vz := nth (5 + i) theta 0;
     ts := nth i (t this) []; nt := length (nth i (t this) []) |}.

(** The data model of the dataset collection: [D] datasets, each with
    three sequences of one length and positive uncertainties. *)
Definition datasets_ok (this : OrbitalParams) : Prop :=
  let D := Z.to_nat (n_datasets this) in
  length (t this) = D /\ length (rv this) = D /\ length (rv_err this) = D /\
  forall i, (i < D)%nat ->
    length (nth i (rv this) []) = length (nth i (t this) []) /\
    length (nth i (rv_err this) []) = length (nth i (t this) []) /\
    Forall (fun e => 0 < e) (nth i (rv_err this) []).

(** A dataset count that is a non-negative integer. *)
Definition non_negative_integer (o : pyobj) : Prop :=
  exists n, isinstance_int o = Some n /\ (0 <= n)%Z.

(** A bound [(lo, hi)] given as a pair of floats. *)
Definition pair_of (b : R * R) : pyobj :=
  PyTuple [PyFloat (fst b); PyFloat (snd b)].

(** A bound read as a pair of numbers [(lo, hi)]. *)
Definition bound_pair (o : pyobj) : option (R * R) :=
  match o with
  | PyTuple (a :: b :: _) =>
    match as_number a, as_number b with
    | Some lo, Some hi => Some (lo, hi)
    | _, _ => None
    end
  | _ => None
  end.

(** The bounds read as a sequence of pairs, when each of them is one. *)
Fixpoint bounds_pairs (l : list pyobj) : option (list (R * R)) :=
  match l with
  | [] => Some []
  | o :: l' =>
    match bound_pair o, bounds_pairs l' with
    | Some b, Some bs => Some (b :: bs)
    | _, _ => None
    end
  end.

(** [lo < x < hi] at every position of [theta]. *)
Fixpoint strictly_inside (bs : list (R * R)) (theta : list R) : Prop :=
  match theta, bs with
  | [], _ => True
  | x :: theta', b :: bs' => (fst b < x < snd b) /\ strictly_inside bs' theta'
  | _ :: _, [] => False
  end.

(** The result and the final state of running a method on an object,
    from a given trace. *)
Definition call {A} (m : M A) (this : OrbitalParams) (tr : list Event)
  : Result A * State :=
  m {| self := this; trace := tr |}.

(** What the method returns or raises. *)
Definition result_of {A} (m : M A) (this : OrbitalParams) : Result A :=
  fst (call m this []).

(** The calls and prints the method makes. *)
Definition calls_of {A} (m : M A) (this : OrbitalParams) : list Event :=
  trace (snd (call m this [])).

(** ** Properties of computations *)

(** A computation that leaves the state as it found it. *)
Definition pure_m {A} (m : M A) : Prop := forall s, snd (m s) = s.

(** A computation that leaves the object as it found it. *)
Definition keeps_self {A} (m : M A) : Prop :=
  forall s, self (snd (m s)) = self s.

(** A computation whose result and effect on the object do not depend on
    the trace it starts from. *)
Definition trace_blind {A} (m : M A) : Prop :=
  forall s1 s2, self s1 = self s2 ->
    fst (m s1) = fst (m s2) /\ self (snd (m s1)) = self (snd (m s2)).

(** ** Pure counterparts of the code's computations *)

(** The boolean the bounds test computes on a pair of numbers. *)
Definition inside (b : R * R) (v : R) : bool :=
  if Rltb (fst b) v then Rltb v (snd b) else false.

(** [op] applied position by position to two arrays of one length. *)
Definition zip_with (op : R -> R -> R) (a b : list R) : list R :=
  map (fun p => op (fst p) (snd p)) (combine a b).

(** What the loop body computes for one dataset, given the call it
    makes. *)
Definition dataset_result (get_rvs : OrbitCall -> Result (list R))
    (c : OrbitCall) (rvi erri : list R) : Result R :=
  rbind (get_rvs c) (fun model =>
  rbind (np.sub rvi model) (fun resid =>
  rbind (np.mul (np.square resid) (np.rdiv 1 (np.square erri))) (fun chi2 =>
  rbind (np.add chi2 (np.log (np.rdiv (2 * np.pi)
                                (np.rdiv 1 (np.square erri))))) (fun terms =>
  Ok (np.sum terms))))).

(** The search of the minimiser against a pure objective: the result it
    reports when each evaluation it asks for is answered by [f], or the
    exception of the first evaluation that raises. *)
Fixpoint search_result (f : list R -> Result R) (s : Search)
  : Result OptimizeResult :=
  match s with
  | Stop res => Ok res
  | Evaluate at_ next => rbind (f at_) (fun v => search_result f (next v))
  end.

(** The objective handed to the minimiser. *)
Definition objective (get_rvs : OrbitCall -> Result (list R))
    (this : OrbitalParams) (theta : list R) : Result R :=
  rbind (result_of (lnlike get_rvs theta) this) (fun l => Ok (- l)).

(** ** Example objects *)

(** A small estimator with one dataset of two samples, the default
    orbital bounds and the offset bound [(-1, 1)]. *)
Definition example_estimator : OrbitalParams :=
  {| n_datasets := 1;
     t := [[0; 1]]; rv := [[1; 2]]; rv_err := [[1; 2]];
     guess := [0; 0; 1; 1; -1; 0];
     bounds := default_bounds ++ [pair_of (-1, 1)] |}.

(** The bounds of the example estimator, as pairs. *)
Definition example_pairs : list (R * R) :=
  [(-4, 4); (-4, 4); (0, 10000); (0, 360); (-4, -4.3e-5); (-1, 1)].

(** An orbit model of zero amplitude: the systemic velocity at every
    time. *)
Definition constant_orbit (c : OrbitCall) : Result (list R) :=
  Ok (map (fun _ => vz c) (ts c)).

(** An orbit model that raises whenever it is called. *)
Definition failing_orbit (c : OrbitCall) : Result (list R) :=
  Raise (ModelError 0).

(** A minimiser that evaluates its objective once, at the starting
    point, and gives up there. *)
Definition one_probe (x0 : list R) (method : string) (bnds : list pyobj)
    (maxiter : Z) (disp : bool) : Search :=
  Evaluate x0 (fun v =>
    Stop {| x := x0; nit := 0; success := false;
            message := "Maximum number of iterations reached" |}).

(** ** The MCMC driver *)

(** The chain of an ensemble run: walkers, steps, parameters. *)
Definition Chain : Type := list (list (list R)).

(** The ensemble sampler ([emcee.EnsembleSampler(...).run_mcmc(pos,
    nsteps)]) seen from its caller: it evaluates the log-probability at
    points of its choice, each choice depending on the values seen so
    far, and ends with a chain or with an exception of its own (emcee
    rejects some walker counts).  The evaluations are taken in the order
    the sampler asks for them. *)
Inductive Sampling : Type :=
| Sampled (chain : Chain)
| SamplerError (e : exn)
| LogProb (at_ : list R) (next : pyfloat -> Sampling).

(** [c * a] for a scalar [c] and an array [a]. *)
Definition np_scale (c : R) (a : list R) : list R := map (fun v => c * v) a.

(** Running the sampler against a log-probability. *)
Fixpoint run_sampling (f : list R -> M pyfloat) (s : Sampling) : M Chain :=
  match s with
  | Sampled chain => ret chain
  | SamplerError e => lift (Raise e)
  | LogProb at_ next => v <- f at_ ;; run_sampling f (next v)
  end.

Section Sampler.

Variable get_rvs : OrbitCall -> Result (list R).

(** [np.random.randn(ndim)]: the draws of the [k]-th call made by the
    method, for the requested size. *)
Variable randn : nat -> Z -> list R.

(** [emcee.EnsembleSampler(nwalkers, ndim, lnprob, threads).run_mcmc(pos,
    nsteps)], as the sampling it performs. *)
Variable run_mcmc : Z -> Z -> Z -> list (list R) -> Z -> Sampling.

(** [OrbitalParams.emcee_orbit]. *)
Definition emcee_orbit (nwalkers nsteps nthreads : Z) : M Chain :=
  this <- get_self ;;
  let ndim := (5 + n_datasets this)%Z in
  pos <- comprehension (range nwalkers) (fun i =>
           lift (np.add (guess this) (np_scale 1e-2 (randn i ndim)))) ;;
  run_sampling (lnprob get_rvs) (run_mcmc nwalkers ndim nthreads pos nsteps).

End Sampler.

(** ** The loop of [lnlike], without the monad *)

(** The orbit-model call the loop body builds for dataset [i], or the
    exception of the first lookup that fails. *)
Definition dataset_call (this : OrbitalParams) (theta : list R) (i : nat)
  : Result OrbitCall :=
  rbind (getitem (t this) i) (fun ti =>
  rbind (getitem theta 0) (fun th0 =>
  rbind (getitem theta 1) (fun th1 =>
  rbind (getitem theta 2) (fun th2 =>
  rbind (getitem theta 3) (fun th3 =>
  rbind (getitem theta 4) (fun th4 =>
  rbind (getitem theta (5 + i)) (fun th5i =>
  Ok {| log_k := th0; log_period := th1; t0 := th2; w := th3;
        log_e := th4; vz := th5i; ts := ti; nt := length ti |}))))))).

(** What the loop body adds for dataset [i] once the call [c] is made. *)
Definition dataset_value (get_rvs : OrbitCall -> Result (list R))
    (this : OrbitalParams) (i : nat) (c : OrbitCall) : Result R :=
  rbind (get_rvs c) (fun model =>
  rbind (getitem (rv_err this) i) (fun erri =>
  rbind (getitem (rv this) i) (fun rvi =>
  rbind (np.sub rvi model) (fun resid =>
  rbind (np.mul (np.square resid) (np.rdiv 1 (np.square erri))) (fun chi2 =>
  rbind (np.add chi2 (np.log (np.rdiv (2 * np.pi)
                                (np.rdiv 1 (np.square erri))))) (fun terms =>
  Ok (np.sum terms))))))).

(** The loop over the datasets [l] from the accumulator [acc]: its result
    and the calls it makes, in order. *)
Fixpoint lnlike_fold (get_rvs : OrbitCall -> Result (list R))
    (this : OrbitalParams) (theta : list R) (l : list nat) (acc : R)
  : Result R * list Event :=
  match l with
  | [] => (Ok acc, [])
  | i :: l' =>
    match dataset_call this theta i with
    | Raise e => (Raise e, [])
    | Ok c =>
      match dataset_value get_rvs this i c with
      | Raise e => (Raise e, [EvOrbit c])
      | Ok v =>
        let (r, evs) := lnlike_fold get_rvs this theta l' (acc + v) in
        (r, EvOrbit c :: evs)
      end
    end
  end.

(** A computation that, run on the object [this], leaves it alone and
    appends to the trace only events with the property [P]. *)
Definition appends_on {A} (this : OrbitalParams) (P : Event -> Prop)
    (m : M A) : Prop :=
  forall tr, exists evs,
    snd (call m this tr) = {| self := this; trace := tr ++ evs |} /\
    Forall P evs.

(** The sampling against a pure log-probability: the chain the sampler
    ends with when each evaluation it asks for is answered by [f], or
    the first exception. *)
Fixpoint sampling_result (f : list R -> Result pyfloat) (s : Sampling)
  : Result Chain :=
  match s with
  | Sampled chain => Ok chain
  | SamplerError e => Raise e
  | LogProb at_ next => rbind (f at_) (fun v => sampling_result f (next v))
  end.

(** The starting positions of the walkers: the guess plus one hundredth
    of the draws of each walker. *)
Definition walker_positions (guess_ : list R) (draws : nat -> list R)
    (nwalkers : Z) : list (list R) :=
  map (fun i => zip_with Rplus guess_ (np_scale 1e-2 (draws i)))
      (range nwalkers).

(** An orbit model that returns one velocity too many. *)
Definition overlong_orbit (c : OrbitCall) : Result (list R) :=
  Ok (vz c :: map (fun _ => vz c) (ts c)).

(** The value [v] lies strictly inside the bound at position [j]. *)
Definition inside_at (bs : list (R * R)) (j : nat) (v : R) : Prop :=
  exists b, nth_error bs j = Some b /\ fst b < v < snd b.

(** The parameters of an orbit-model call lie strictly inside the
    bounds: the five orbital ones at positions 0 to 4, the systemic
    velocity at the position of some dataset. *)
Definition call_inside (bs : list (R * R)) (ev : Event) : Prop :=
  match ev with
  | EvOrbit c =>
    inside_at bs 0 (log_k c) /\ inside_at bs 1 (log_period c) /\
    inside_at bs 2 (t0 c) /\ inside_at bs 3 (w c) /\
    inside_at bs 4 (log_e c) /\ exists i, inside_at bs (5 + i) (vz c)
  | EvPrint _ => False
  end.

(** The event is a call of the orbit model. *)
Definition is_orbit_call (ev : Event) : Prop :=
  match ev with
  | EvOrbit _ => True
  | EvPrint _ => False
  end.

(** A sampler that asks for the log-probability of the first walker and
    then of a point far outside the bounds, and ends with no chain. *)
Definition two_probes (nwalkers ndim nthreads : Z) (pos : list (list R))
    (nsteps : Z) : Sampling :=
  LogProb (nth 0 pos []) (fun _ =>
  LogProb [9; 9; 9; 9; 9; 9] (fun _ => Sampled [])).

(** ** The arithmetic of [lnlike] in float64 *)

(** The real-number model above serves the statements that relate one
    run of the code to another.  The statement of what [lnlike]
    computes needs the arithmetic as the machine does it: here the
    arrays hold IEEE 754 binary64 numbers and [-], [*], [/], [+] are
    the operations of the processor, rounded to nearest.  numpy's
    [log] and [sum], whose rounding and order of summation belong to
    the library, are parameters. *)

(** A 1-D array of float64. *)
Definition farray : Type := list float.

(** [np.pi]: the float64 nearest to pi, 3.141592653589793. *)
Definition np_pi64 : float := 0x1.921fb54442d18p+1%float.

(** Element-wise binary operator on float64 arrays, with broadcasting. *)
Definition binop64 (op : float -> float -> float) (a b : farray)
  : Result farray :=
  if Nat.eqb (length a) (length b) then
    Ok (map (fun p => op (fst p) (snd p)) (combine a b))
  else
    match a, b with
    | [x], _ => Ok (map (fun y => op x y) b)
    | _, [y] => Ok (map (fun x => op x y) a)
    | _, _ => Raise ValueError
    end.

(** [a ** 2] on float64: numpy squares by one multiplication. *)
Definition square64 (a : farray) : farray :=
  map (fun x => PrimFloat.mul x x) a.

(** [c / a] for a scalar [c]. *)
Definition rdiv64 (c : float) (a : farray) : farray :=
  map (fun x => PrimFloat.div c x) a.

(** The estimator with float64 data: the fields [lnlike] reads. *)
Record OrbitalParams64 : Type := {
  n_datasets64 : Z;
  t64 : list farray;
  rv64 : list farray;
  rv_err64 : list farray
}.

(** One call of the orbit model with float64 arguments. *)
Record OrbitCall64 : Type := {
  log_k64 : float;
  log_period64 : float;
  t0_64 : float;
  w64 : float;
  log_e64 : float;
  vz64 : float;
  ts64 : farray;
  nt64 : nat
}.

Section Float64.

(** [np.log] on one float64. *)
Variable np_log : float -> float.

(** [np.sum] of a float64 array. *)
Variable np_sum : farray -> float.

(** [keppy.orbit] on float64. *)
Variable get_rvs64 : OrbitCall64 -> Result farray.

Variable this : OrbitalParams64.
Variable theta : farray.

(** Lines 106 to 109: the lookups and the call built for dataset [i]. *)
Definition call64 (i : nat) : Result OrbitCall64 :=
  rbind (getitem (t64 this) i) (fun ti =>
  rbind (getitem theta 0) (fun th0 =>
  rbind (getitem theta 1) (fun th1 =>
  rbind (getitem theta 2) (fun th2 =>
  rbind (getitem theta 3) (fun th3 =>
  rbind (getitem theta 4) (fun th4 =>
  rbind (getitem theta (5 + i)) (fun th5i =>
  Ok {| log_k64 := th0; log_period64 := th1; t0_64 := th2; w64 := th3;
        log_e64 := th4; vz64 := th5i; ts64 := ti;
        nt64 := length ti |}))))))).

(** Lines 110 to 113: the model, [inv_sigma2] and the sum added for
    dataset [i]. *)
Definition value64 (i : nat) (c : OrbitCall64) : Result float :=
  rbind (get_rvs64 c) (fun model =>
  rbind (getitem (rv_err64 this) i) (fun erri =>
  let inv_sigma2 := rdiv64 1 (square64 erri) in
  rbind (getitem (rv64 this) i) (fun rvi =>
  rbind (binop64 PrimFloat.sub rvi model) (fun resid =>
  rbind (binop64 PrimFloat.mul (square64 resid) inv_sigma2) (fun chi2 =>
  rbind (binop64 PrimFloat.add chi2
           (map np_log (rdiv64 (PrimFloat.mul 2 np_pi64) inv_sigma2)))
        (fun terms =>
  Ok (np_sum terms))))))).

(** The loop of line 105, with the accumulator [sum_like] and the trace
    of the calls made so far. *)
Fixpoint loop64 (l : list nat) (sum_like : float) (tr : list OrbitCall64)
  : Result float * list OrbitCall64 :=
  match l with
  | [] => (Ok sum_like, tr)
  | i :: l' =>
    match call64 i with
    | Raise e => (Raise e, tr)
    | Ok c =>
      match value64 i c with
      | Raise e => (Raise e, tr ++ [c])
      | Ok s => loop64 l' (PrimFloat.add sum_like s) (tr ++ [c])
      end
    end
  end.

(** [OrbitalParams.lnlike] on float64: the result and the trace. *)
Definition lnlike64 (tr : list OrbitCall64)
  : Result float * list OrbitCall64 :=
  match loop64 (range (n_datasets64 this)) 0%float tr with
  | (Ok sum_like, tr') => (Ok (PrimFloat.mul sum_like (-0.5)%float), tr')
  | (Raise e, tr') => (Raise e, tr')
  end.

End Float64.

(** The summand the code computes at one sample, in the order it
    computes it:
    [(rv - model)^2 * (1 / rv_err^2) + log(2 pi / (1 / rv_err^2))]. *)
Definition gaussian_term64 (np_log : float -> float) (a m e : float)
  : float :=
  PrimFloat.add
    (PrimFloat.mul (PrimFloat.mul (PrimFloat.sub a m) (PrimFloat.sub a m))
                   (PrimFloat.div 1 (PrimFloat.mul e e)))
    (np_log (PrimFloat.div (PrimFloat.mul 2 np_pi64)
                           (PrimFloat.div 1 (PrimFloat.mul e e)))).

(** The summands of one dataset, sample by sample. *)
Definition gaussian_terms64 (np_log : float -> float)
    (rv_i model_i rv_err_i : farray) : farray :=
  map (fun p => gaussian_term64 np_log (fst p) (fst (snd p)) (snd (snd p)))
      (combine rv_i (combine model_i rv_err_i)).

(** The call prescribed for dataset [i]: [theta[0..4]], the offset
    [theta[5+i]] as the systemic velocity, the times of the dataset. *)
Definition orbit_call_spec64 (this : OrbitalParams64) (theta : farray)
    (i : nat) : OrbitCall64 :=
  {| log_k64 := nth 0 theta 0%float; log_period64 := nth 1 theta 0%float;
     t0_64 := nth 2 theta 0%float; w64 := nth 3 theta 0%float;
     log_e64 := nth 4 theta 0%float; vz64 := nth (5 + i) theta 0%float;
     ts64 := nth i (t64 this) []; nt64 := length (nth i (t64 this) []) |}.

(** [D] datasets, each with three arrays of one length. *)
Definition datasets64_ok (this : OrbitalParams64) : Prop :=
  let D := Z.to_nat (n_datasets64 this) in
  length (t64 this) = D /\ length (rv64 this) = D /\
  length (rv_err64 this) = D /\
  forall i, (i < D)%nat ->
    length (nth i (rv64 this) []) = length (nth i (t64 this) []) /\
    length (nth i (rv_err64 this) []) = length (nth i (t64 this) []).

(** The value of [lnlike] as the code accumulates it: the sums of the
    datasets added in order to 0, then multiplied by [-0.5]. *)
Definition lnlike64_value (np_log : float -> float) (np_sum : farray -> float)
    (this : OrbitalParams64) (model : nat -> farray) : float :=
  PrimFloat.mul
    (fold_left PrimFloat.add
       (map (fun i => np_sum (gaussian_terms64 np_log (nth i (rv64 this) [])
                                (model i) (nth i (rv_err64 this) [])))
            (range (n_datasets64 this)))
       0%float)
    (-0.5)%float.

(** A sum that accumulates from 0, left to right. *)
Definition sequential_sum (a : farray) : float :=
  fold_left PrimFloat.add a 0%float.

(** The values of the logarithm that IEEE 754 fixes; at the other
    arguments, where the rounding is the library's, this table has no
    entry and answers [nan]. *)
Definition log_exceptional (x : float) : float :=
  if PrimFloat.eqb x infinity then infinity
  else if PrimFloat.eqb x 0 then neg_infinity
  else if PrimFloat.eqb x 1 then 0%float
  else nan.

(** An orbit model of zero amplitude on float64. *)
Definition constant_orbit64 (c : OrbitCall64) : Result farray :=
  Ok (map (fun _ => vz64 c) (ts64 c)).

(** One dataset with one sample: velocity 1 at time 0, with the
    uncertainty [1e200] (the float64 nearest to it). *)
Definition huge_uncertainty : OrbitalParams64 :=
  {| n_datasets64 := 1; t64 := [[0%float]]; rv64 := [[1%float]];
     rv_err64 := [[0x1.4e718d7d7625ap+664%float]] |}.

(** The calls of one evaluation of the posterior: the [i]-th call is
    the call for dataset [i], on the times of that dataset, with the
    five orbital parameters strictly inside bounds 0 to 4 and the
    systemic velocity strictly inside bound [5 + i], the bound of the
    offset of that dataset. *)
Definition evaluation_block (this : OrbitalParams) (bs : list (R * R))
    (block : list Event) : Prop :=
  exists (cs : nat -> OrbitCall) (m : nat),
    block = map (fun i => EvOrbit (cs i)) (seq 0 m) /\
    forall i, (i < m)%nat ->
      nth_error (t this) i = Some (ts (cs i)) /\
      inside_at bs 0 (log_k (cs i)) /\ inside_at bs 1 (log_period (cs i)) /\
      inside_at bs 2 (t0 (cs i)) /\ inside_at bs 3 (w (cs i)) /\
      inside_at bs 4 (log_e (cs i)) /\ inside_at bs (5 + i) (vz (cs i)).

(** A computation that, run on the object [this], leaves it alone and
    appends to the trace a sequence of blocks with the property [P]. *)
Definition appends_blocks {A} (this : OrbitalParams)
    (P : list Event -> Prop) (m : M A) : Prop :=
  forall tr, exists blocks,
    snd (call m this tr) = {| self := this; trace := tr ++ concat blocks |} /\
    Forall P blocks.

(** The call the loop body builds for dataset [i], when it builds one. *)
Definition call_built (this : OrbitalParams) (theta : list R) (i : nat)
  : OrbitCall :=
  match dataset_call this theta i with
  | Ok c => c
  | Raise _ => orbit_call_spec this theta i
  end.

(** ** The constructor *)

Lemma isinstance_int_cases (o : pyobj) :
  non_negative_integer o \/
  isinstance_int o = None \/
  (exists n, isinstance_int o = Some n /\ (n < 0)%Z).
Proof.
  unfold non_negative_integer.
  destruct (isinstance_int o) as [n|] eqn:E.
  - destruct (Z_lt_le_dec n 0) as [Hneg|Hpos].
    + right; right. exists n. split; [reflexivity | exact Hneg].
    + left. exists n. split; [reflexivity | exact Hpos].
  - right; left. reflexivity.
Qed.

Lemma init_wrong_type t_ rv_ rv_err_ guess_ bounds_vz bounds_ nd :
  isinstance_int nd = None ->
  __init__ t_ rv_ rv_err_ guess_ bounds_vz bounds_ nd = Raise TypeError.
Proof. intros H. unfold __init__. rewrite H. reflexivity. Qed.

Lemma init_negative t_ rv_ rv_err_ guess_ bounds_vz bounds_ nd n :
  isinstance_int nd = Some n -> (n < 0)%Z ->
  __init__ t_ rv_ rv_err_ guess_ bounds_vz bounds_ nd = Raise ValueError.
Proof.
  intros H Hn. unfold __init__. rewrite H.
  apply Z.ltb_lt in Hn. rewrite Hn. reflexivity.
Qed.

Lemma init_guess_length t_ rv_ rv_err_ guess_ bounds_vz bounds_ nd n :
  isinstance_int nd = Some n -> (0 <= n)%Z ->
  Z.of_nat (length guess_) <> (5 + n)%Z ->
  __init__ t_ rv_ rv_err_ guess_ bounds_vz bounds_ nd = Raise ValueError.
Proof.
  intros H Hn Hlen. unfold __init__. rewrite H.
  apply Z.ltb_ge in Hn. rewrite Hn.
  apply Z.eqb_neq in Hlen. rewrite Hlen. simpl.
  destruct (n =? 1)%Z; reflexivity.
Qed.

(** What a successful construction stores. *)
Lemma init_ok_inv t_ rv_ rv_err_ guess_ bounds_vz bounds_ nd o :
  __init__ t_ rv_ rv_err_ guess_ bounds_vz bounds_ nd = Ok o ->
  exists n,
    isinstance_int nd = Some n /\ (0 <= n)%Z /\
    Z.of_nat (length guess_) = (5 + n)%Z /\
    n_datasets o = n /\ t o = t_ /\ rv o = rv_ /\ rv_err o = rv_err_ /\
    guess o = guess_ /\
    ((n = 1%Z /\ bounds o = bounds_ ++ [bounds_vz]) \/
     (n <> 1%Z /\ exists items,
         bounds_vz = PyTuple items /\ bounds o = bounds_ ++ items)).
Proof.
  unfold __init__. intros H.
  destruct (isinstance_int nd) as [n|]; [|discriminate].
  exists n.
  destruct (Z.ltb_spec n 0) as [Hneg|Hpos]; [discriminate|].
  destruct (Z.eqb_spec (Z.of_nat (length guess_)) (5 + n)) as [Hlen|Hlen];
    simpl in H.
  - destruct (Z.eqb_spec n 1) as [H1|H1].
    + inversion H; subst o; simpl. repeat split; auto.
    + destruct bounds_vz as [z|b|r| |items]; simpl in H; try discriminate.
      inversion H; subst o; simpl. repeat split; auto.
      right. split; [exact H1|]. exists items. split; reflexivity.
  - destruct (n =? 1)%Z; discriminate.
Qed.

Lemma init_ok_single t_ rv_ rv_err_ guess_ bounds_vz bounds_ nd :
  isinstance_int nd = Some 1%Z -> length guess_ = 6%nat ->
  __init__ t_ rv_ rv_err_ guess_ bounds_vz bounds_ nd =
  Ok {| n_datasets := 1; t := t_; rv := rv_; rv_err := rv_err_;
        guess := guess_; bounds := bounds_ ++ [bounds_vz] |}.
Proof.
  intros H Hlen. unfold __init__. rewrite H, Hlen. reflexivity.
Qed.

Lemma init_ok_other t_ rv_ rv_err_ guess_ items bounds_ nd n :
  isinstance_int nd = Some n -> (0 <= n)%Z -> n <> 1%Z ->
  Z.of_nat (length guess_) = (5 + n)%Z ->
  __init__ t_ rv_ rv_err_ guess_ (PyTuple items) bounds_ nd =
  Ok {| n_datasets := n; t := t_; rv := rv_; rv_err := rv_err_;
        guess := guess_; bounds := bounds_ ++ items |}.
Proof.
  intros H Hn H1 Hlen. unfold __init__. rewrite H.
  apply Z.ltb_ge in Hn. rewrite Hn.
  apply Z.eqb_neq in H1. rewrite H1.
  apply Z.eqb_eq in Hlen. rewrite Hlen. reflexivity.
Qed.

(** C4. Construction fails with a configuration error ([TypeError] for a
    dataset count of the wrong type, [ValueError] for a negative one)
    when [n_datasets] is not a non-negative integer, and with a
    configuration error ([ValueError]) when [len(guess) != 5 +
    n_datasets], for every dataset count [D >= 0]; when construction
    succeeds the guess is stored unchanged. *)
Theorem init_configuration_errors :
  forall t_ rv_ rv_err_ guess_ bounds_vz bounds_ nd,
    (~ non_negative_integer nd ->
     exists e,
       __init__ t_ rv_ rv_err_ guess_ bounds_vz bounds_ nd = Raise e /\
       ConfigurationError e /\
       (isinstance_int nd = None -> e = TypeError) /\
       (isinstance_int nd <> None -> e = ValueError)) /\
    (forall D, isinstance_int nd = Some D -> (0 <= D)%Z ->
       Z.of_nat (length guess_) <> (5 + D)%Z ->
       __init__ t_ rv_ rv_err_ guess_ bounds_vz bounds_ nd = Raise ValueError
       /\ ConfigurationError ValueError) /\
    (forall o,
       __init__ t_ rv_ rv_err_ guess_ bounds_vz bounds_ nd = Ok o ->
       guess o = guess_).
Proof.
  intros. split; [|split].
  - intros Hbad.
    destruct (isinstance_int_cases nd) as [Hok|[Hnone|[n [Hn Hneg]]]].
    + contradiction.
    + exists TypeError. split; [|split; [|split]].
      * apply init_wrong_type; exact Hnone.
      * left; reflexivity.
      * reflexivity.
      * intros H; contradiction.
    + exists ValueError. split; [|split; [|split]].
      * eapply init_negative; eassumption.
      * right; reflexivity.
      * rewrite Hn; discriminate.
      * reflexivity.
  - intros D HD Hpos Hlen. split.
    + eapply init_guess_length; eassumption.
    + right; reflexivity.
  - intros o Hok.
    destruct (init_ok_inv _ _ _ _ _ _ _ Hok) as (n & _ & _ & _ & _ & _ & _ & _ & Hg & _).
    exact Hg.
Qed.

(** The rejections of C4 at a [None] count, at the count [-1], and at the
    counts 0, 1, 2 and 5 with a guess of length 4; the acceptance at the
    count 1 with a guess of length 6. *)
Lemma init_configuration_errors_witness :
  (exists e, __init__ [] [] [] [] (PyTuple []) default_bounds PyNone = Raise e
             /\ ConfigurationError e) /\
  (exists e, __init__ [] [] [] [] (PyTuple []) default_bounds (PyInt (-1))
             = Raise e /\ ConfigurationError e) /\
  __init__ [] [] [] [1;2;3;4] (PyTuple []) default_bounds (PyInt 0)
    = Raise ValueError /\
  __init__ [] [] [] [1;2;3;4] (PyTuple []) default_bounds (PyInt 1)
    = Raise ValueError /\
  __init__ [] [] [] [1;2;3;4] (PyTuple []) default_bounds (PyInt 2)
    = Raise ValueError /\
  __init__ [] [] [] [1;2;3;4] (PyTuple []) default_bounds (PyInt 5)
    = Raise ValueError /\
  (exists o,
     __init__ [[1]] [[2]] [[3]] [1;2;3;4;5;6] (pair_of (-1, 1))
              default_bounds (PyInt 1) = Ok o /\
     guess o = [1;2;3;4;5;6]).
Proof.
  assert (Hnone : ~ non_negative_integer PyNone).
  { intros [n [H _]]. discriminate H. }
  assert (Hneg : ~ non_negative_integer (PyInt (-1))).
  { intros [n [H Hn]]. simpl in H. inversion H. subst n. lia. }
  split; [|split; [|split; [|split; [|split; [|split]]]]].
  - destruct (proj1 (init_configuration_errors
                       [] [] [] [] (PyTuple []) default_bounds PyNone) Hnone)
      as (e & He & Hc & _).
    exists e. split; assumption.
  - destruct (proj1 (init_configuration_errors
                       [] [] [] [] (PyTuple []) default_bounds (PyInt (-1)))
                    Hneg) as (e & He & Hc & _).
    exists e. split; assumption.
  - apply (proj1 (proj2 (init_configuration_errors
             [] [] [] [1;2;3;4] (PyTuple []) default_bounds (PyInt 0))) 0%Z);
      [reflexivity | lia | simpl; lia].
  - apply (proj1 (proj2 (init_configuration_errors
             [] [] [] [1;2;3;4] (PyTuple []) default_bounds (PyInt 1))) 1%Z);
      [reflexivity | lia | simpl; lia].
  - apply (proj1 (proj2 (init_configuration_errors
             [] [] [] [1;2;3;4] (PyTuple []) default_bounds (PyInt 2))) 2%Z);
      [reflexivity | lia | simpl; lia].
  - apply (proj1 (proj2 (init_configuration_errors
             [] [] [] [1;2;3;4] (PyTuple []) default_bounds (PyInt 5))) 5%Z);
      [reflexivity | lia | simpl; lia].
  - eexists. split; [reflexivity|].
    apply (proj2 (proj2 (init_configuration_errors
             [[1]] [[2]] [[3]] [1;2;3;4;5;6] (pair_of (-1, 1))
             default_bounds (PyInt 1)))).
    reflexivity.
Defined.

(** C5. The stored bounds depend on the dataset count: for [D == 1] the
    object [bounds_vz] is appended to the orbital bounds as one element
    (length 6 for 5 orbital bounds); for [D > 1] the tuple [bounds_vz] is
    concatenated (length 8 for [D == 3], 5 orbital bounds and 3 pairs). *)
Theorem bounds_construction_asymmetric :
  forall t_ rv_ rv_err_ guess_ bounds_ nd,
    (forall bounds_vz,
       isinstance_int nd = Some 1%Z -> length guess_ = 6%nat ->
       exists o,
         __init__ t_ rv_ rv_err_ guess_ bounds_vz bounds_ nd = Ok o /\
         bounds o = bounds_ ++ [bounds_vz] /\
         (length bounds_ = 5%nat -> length (bounds o) = 6%nat)) /\
    (forall D items,
       isinstance_int nd = Some D -> (1 < D)%Z ->
       Z.of_nat (length guess_) = (5 + D)%Z ->
       exists o,
         __init__ t_ rv_ rv_err_ guess_ (PyTuple items) bounds_ nd = Ok o /\
         bounds o = bounds_ ++ items /\
         (D = 3%Z -> length bounds_ = 5%nat -> length items = 3%nat ->
          length (bounds o) = 8%nat)).
Proof.
  intros. split.
  - intros bounds_vz Hnd Hlen.
    eexists. split; [apply init_ok_single; assumption|].
    simpl. split; [reflexivity|].
    intros H5. rewrite length_app, H5. reflexivity.
  - intros D items Hnd HD Hlen.
    eexists. split; [eapply init_ok_other; [exact Hnd | lia | lia | exact Hlen]|].
    simpl. split; [reflexivity|].
    intros _ H5 H3. rewrite length_app, H5, H3. reflexivity.
Qed.

(** C5 at one dataset with the pair [(-1, 1)], and at three datasets with
    three such pairs, both over the default orbital bounds. *)
Lemma bounds_construction_asymmetric_witness :
  (exists o,
     __init__ [[1]] [[2]] [[3]] [1;2;3;4;5;6] (pair_of (-1, 1))
              default_bounds (PyInt 1) = Ok o /\
     bounds o = default_bounds ++ [pair_of (-1, 1)] /\
     length (bounds o) = 6%nat) /\
  (exists o,
     __init__ [[1];[1];[1]] [[2];[2];[2]] [[3];[3];[3]] [1;2;3;4;5;6;7;8]
              (PyTuple [pair_of (-1, 1); pair_of (-2, 2); pair_of (-3, 3)])
              default_bounds (PyInt 3) = Ok o /\
     bounds o = default_bounds
                ++ [pair_of (-1, 1); pair_of (-2, 2); pair_of (-3, 3)] /\
     length (bounds o) = 8%nat).
Proof.
  split.
  - destruct (proj1 (bounds_construction_asymmetric
                       [[1]] [[2]] [[3]] [1;2;3;4;5;6] default_bounds
                       (PyInt 1)) (pair_of (-1, 1)) eq_refl eq_refl)
      as (o & Ho & Hb & Hl).
    exists o. split; [exact Ho|]. split; [exact Hb|].
    apply Hl. reflexivity.
  - assert (H8 : Z.of_nat (length [1;2;3;4;5;6;7;8]) = (5 + 3)%Z)
      by reflexivity.
    assert (H13 : (1 < 3)%Z) by reflexivity.
    destruct (proj2 (bounds_construction_asymmetric
                       [[1];[1];[1]] [[2];[2];[2]] [[3];[3];[3]]
                       [1;2;3;4;5;6;7;8] default_bounds (PyInt 3))
                    3%Z [pair_of (-1, 1); pair_of (-2, 2); pair_of (-3, 3)]
                    eq_refl H13 H8)
      as (o & Ho & Hb & Hl).
    exists o. split; [exact Ho|]. split; [exact Hb|].
    apply Hl; reflexivity.
Defined.

(** ** Reasoning about methods *)

Lemma pure_ret {A} (a : A) : pure_m (ret a).
Proof. intros s. reflexivity. Qed.

Lemma pure_lift {A} (r : Result A) : pure_m (lift r).
Proof. intros s. reflexivity. Qed.

Lemma pure_get_self : pure_m get_self.
Proof. intros s. reflexivity. Qed.

Lemma pure_bind {A B} (m : M A) (k : A -> M B) :
  pure_m m -> (forall a, pure_m (k a)) -> pure_m (x <- m ;; k x).
Proof.
  intros Hm Hk s. unfold bind.
  pose proof (Hm s) as H1.
  destruct (m s) as [[a|e] s1]; simpl in *; subst s1.
  - apply Hk.
  - reflexivity.
Qed.

Lemma pure_if {A} (b : bool) (m1 m2 : M A) :
  pure_m m1 -> pure_m m2 -> pure_m (if b then m1 else m2).
Proof. destruct b; auto. Qed.

Lemma pure_comprehension {A B} (l : list A) (f : A -> M B) :
  (forall a, pure_m (f a)) -> pure_m (comprehension l f).
Proof.
  intros Hf. induction l as [|a l IH]; simpl.
  - apply pure_ret.
  - apply pure_bind; [apply Hf|]. intros b.
    apply pure_bind; [exact IH|]. intros bs. apply pure_ret.
Qed.

Lemma pure_keeps_self {A} (m : M A) : pure_m m -> keeps_self m.
Proof. intros H s. rewrite H. reflexivity. Qed.

Lemma keeps_emit (e : Event) : keeps_self (emit e).
Proof. intros s. reflexivity. Qed.

Lemma keeps_bind {A B} (m : M A) (k : A -> M B) :
  keeps_self m -> (forall a, keeps_self (k a)) -> keeps_self (x <- m ;; k x).
Proof.
  intros Hm Hk s. unfold bind.
  pose proof (Hm s) as H1.
  destruct (m s) as [[a|e] s1]; simpl in *.
  - rewrite Hk. exact H1.
  - exact H1.
Qed.

Lemma keeps_for_each {A B} (l : list A) (body : A -> B -> M B) :
  (forall a b, keeps_self (body a b)) ->
  forall acc, keeps_self (for_each l acc body).
Proof.
  intros Hb. induction l as [|a l IH]; intros acc; simpl.
  - apply pure_keeps_self, pure_ret.
  - apply keeps_bind; [apply Hb|]. intros acc'. apply IH.
Qed.

Create HintDb methods.
#[local] Hint Resolve pure_ret pure_lift pure_get_self pure_keeps_self
  keeps_emit : methods.

Ltac step_pure :=
  repeat first
    [ apply pure_ret | apply pure_lift | apply pure_get_self
    | apply pure_if
    | apply pure_bind; [|intro] ].

Ltac step_keeps :=
  repeat first
    [ apply keeps_emit
    | apply pure_keeps_self; solve [step_pure]
    | apply keeps_bind; [|intro] ].

Lemma pure_in_bounds this theta i : pure_m (in_bounds this theta i).
Proof. unfold in_bounds. step_pure. Qed.

Lemma pure_flat theta : pure_m (flat theta).
Proof.
  unfold flat. apply pure_bind; [apply pure_get_self|]. intros this.
  apply pure_bind.
  - apply pure_comprehension. intros i. apply pure_in_bounds.
  - intros params. step_pure.
Qed.

Lemma keeps_lnlike get_rvs theta : keeps_self (lnlike get_rvs theta).
Proof.
  unfold lnlike. apply keeps_bind; [auto with methods|]. intros this.
  apply keeps_bind; [|intros; auto with methods].
  apply keeps_for_each. intros i acc.
  unfold BinarySystem_get_rvs. step_keeps.
Qed.

Lemma keeps_lnprob get_rvs theta : keeps_self (lnprob get_rvs theta).
Proof.
  unfold lnprob. apply keeps_bind.
  - apply pure_keeps_self, pure_flat.
  - intros lp. destruct (negb (isfinite lp)).
    + auto with methods.
    + apply keeps_bind; [apply keeps_lnlike|]. intros. auto with methods.
Qed.

Lemma keeps_run_search (f : list R -> M R) (srch : Search) :
  (forall p, keeps_self (f p)) -> keeps_self (run_search f srch).
Proof.
  intros Hf. induction srch as [res|p next IH]; simpl.
  - auto with methods.
  - apply keeps_bind; [apply Hf|]. intros v. apply IH.
Qed.

Lemma keeps_ml_orbit get_rvs minimize maxiter disp :
  keeps_self (ml_orbit get_rvs minimize maxiter disp).
Proof.
  unfold ml_orbit. apply keeps_bind; [auto with methods|]. intros this.
  apply keeps_bind.
  - apply keeps_run_search. intros p. unfold nll.
    apply keeps_bind; [apply keeps_lnlike|]. intros. auto with methods.
  - intros result. destruct disp; step_keeps.
Qed.

(** ** The flat prior *)

Lemma Rltb_true a b : Rltb a b = true <-> a < b.
Proof. unfold Rltb. destruct (Rlt_dec a b); split; intros; auto; discriminate. Qed.

Lemma Rltb_false a b : Rltb a b = false <-> ~ a < b.
Proof.
  unfold Rltb. destruct (Rlt_dec a b); split; intros; auto;
    [discriminate | contradiction].
Qed.

Lemma inside_true b v : inside b v = true <-> fst b < v < snd b.
Proof.
  unfold inside. destruct (Rltb (fst b) v) eqn:E.
  - apply Rltb_true in E. rewrite Rltb_true. tauto.
  - apply Rltb_false in E. split; [discriminate | tauto].
Qed.

Lemma bounds_pairs_nth l bs :
  bounds_pairs l = Some bs ->
  length bs = length l /\
  forall j b, nth_error bs j = Some b ->
    exists o, nth_error l j = Some o /\ bound_pair o = Some b.
Proof.
  revert bs. induction l as [|o l IH]; intros bs H; simpl in H.
  - inversion H. split; [reflexivity|]. intros [|j] b Hb; discriminate.
  - destruct (bound_pair o) as [b0|] eqn:Eo; [|discriminate].
    destruct (bounds_pairs l) as [bs'|]; [|discriminate].
    inversion H; subst bs. destruct (IH bs' eq_refl) as [Hlen Hnth].
    split; [simpl; congruence|].
    intros [|j] b Hb; simpl in *.
    + inversion Hb; subst b. exists o. split; [reflexivity | exact Eo].
    + apply Hnth; exact Hb.
Qed.

(** The bounds test at a position whose bound is a pair of numbers. *)
Lemma in_bounds_pair this theta j b v s :
  (exists o, nth_error (bounds this) j = Some o /\ bound_pair o = Some b) ->
  nth_error theta j = Some v ->
  in_bounds this theta j s = (Ok (inside b v), s).
Proof.
  intros (o & Ho & Hb) Hv.
  unfold in_bounds, bind, lift, ret, getitem. rewrite Ho, Hv.
  destruct o as [z|c|r| |items]; try discriminate.
  destruct items as [|lo [|hi rest]]; try discriminate.
  simpl in Hb. simpl. unfold py_lt_l, py_lt_r, inside.
  destruct (as_number lo) as [l|]; [|discriminate].
  destruct (as_number hi) as [h|]; [|discriminate].
  inversion Hb; subst b. simpl.
  destruct (Rltb l v); reflexivity.
Qed.

Lemma comprehension_pure_values {A B} (l : list A) (f : A -> M B)
    (g : A -> B) s :
  (forall a, In a l -> f a s = (Ok (g a), s)) ->
  comprehension l f s = (Ok (map g l), s).
Proof.
  induction l as [|a l IH]; intros H; simpl.
  - reflexivity.
  - unfold bind. rewrite (H a (or_introl eq_refl)).
    rewrite IH by (intros a' Ha'; apply H; right; exact Ha').
    reflexivity.
Qed.

Lemma map_seq_nth {B} (f : R * R -> R -> B) (bs : list (R * R)) (theta : list R) d :
  (length theta <= length bs)%nat ->
  map (fun j => f (nth j bs d) (nth j theta 0)) (seq 0 (length theta)) =
  map (fun p => f (fst p) (snd p)) (combine bs theta).
Proof.
  revert bs. induction theta as [|v theta IH]; intros bs Hlen.
  - simpl. destruct bs; reflexivity.
  - destruct bs as [|b bs]; [simpl in Hlen; lia|].
    simpl. f_equal. rewrite <- seq_shift, map_map. simpl.
    apply IH. simpl in Hlen. lia.
Qed.

Lemma all_inside_iff bs theta :
  (length theta <= length bs)%nat ->
  all (map (fun p => inside (fst p) (snd p)) (combine bs theta)) = true <->
  strictly_inside bs theta.
Proof.
  revert bs. induction theta as [|v theta IH]; intros bs Hlen.
  - destruct bs; simpl; tauto.
  - destruct bs as [|b bs]; [simpl in Hlen; lia|].
    simpl in *. rewrite andb_true_iff, inside_true.
    unfold all in IH. rewrite IH by lia. tauto.
Qed.

(** The value of [flat] when the bounds are pairs of numbers. *)
Lemma flat_value this theta bs tr :
  bounds_pairs (bounds this) = Some bs ->
  (length theta <= length bs)%nat ->
  call (flat theta) this tr =
  (Ok (if all (map (fun p => inside (fst p) (snd p)) (combine bs theta))
       then Fin 0 else NegInf),
   {| self := this; trace := tr |}).
Proof.
  intros Hbs Hlen. unfold call, flat, bind at 1, get_self. simpl.
  destruct (bounds_pairs_nth _ Hbs) as [Hl Hnth].
  unfold bind.
  rewrite (@comprehension_pure_values _ _ _ _
             (fun j => inside (nth j bs (0, 0)) (nth j theta 0))).
  - rewrite map_seq_nth by exact Hlen.
    destruct (all _); reflexivity.
  - intros j Hj. apply in_seq in Hj. simpl in Hj.
    apply in_bounds_pair.
    + apply Hnth. apply nth_error_nth'. lia.
    + apply nth_error_nth'. lia.
Qed.

(** [flat] returns nothing but [0.0] and [-inf]. *)
Lemma flat_two_values theta s v :
  fst (flat theta s) = Ok v -> v = Fin 0 \/ v = NegInf.
Proof.
  unfold flat, bind, get_self. simpl.
  destruct (comprehension _ _ _) as [[params|e] s']; simpl.
  - destruct (all params); simpl; intros H; inversion H; auto.
  - discriminate.
Qed.

(** A coordinate on an endpoint of its bound is not strictly inside. *)
Lemma on_endpoint_not_inside bs theta j b v :
  nth_error theta j = Some v -> nth_error bs j = Some b ->
  v = fst b \/ v = snd b -> ~ strictly_inside bs theta.
Proof.
  revert bs j. induction theta as [|u theta IH]; intros bs j Hv Hb Hend Hin.
  - destruct j; discriminate.
  - destruct bs as [|c bs]; [exact Hin|].
    destruct Hin as [Hc Hrest]. destruct j as [|j]; simpl in *.
    + inversion Hv; inversion Hb; subst. lra.
    + eapply IH; eassumption.
Qed.

(** C3. With bounds that are pairs of numbers, one for each position of
    theta, the flat prior returns [0.0] when [lo < theta[j] < hi] holds
    strictly at every position and [-inf] otherwise, in particular when
    some coordinate equals an endpoint of its bound; it leaves the state
    alone, and whatever the bounds are it returns no value other than
    [0.0] and [-inf]. *)
Theorem flat_prior_values :
  forall this theta bs tr,
    bounds_pairs (bounds this) = Some bs ->
    (length theta <= length bs)%nat ->
    (strictly_inside bs theta ->
     call (flat theta) this tr =
     (Ok (Fin 0), {| self := this; trace := tr |})) /\
    (~ strictly_inside bs theta ->
     call (flat theta) this tr =
     (Ok NegInf, {| self := this; trace := tr |})) /\
    (forall j b v,
       nth_error theta j = Some v -> nth_error bs j = Some b ->
       v = fst b \/ v = snd b ->
       call (flat theta) this tr =
       (Ok NegInf, {| self := this; trace := tr |})) /\
    (forall this' theta' tr' v,
       fst (call (flat theta') this' tr') = Ok v -> v = Fin 0 \/ v = NegInf).
Proof.
  intros this theta bs tr Hbs Hlen.
  pose proof (flat_value this theta tr Hbs Hlen) as Hval.
  pose proof (all_inside_iff bs theta Hlen) as Hiff.
  assert (Hout : ~ strictly_inside bs theta ->
                 call (flat theta) this tr =
                 (Ok NegInf, {| self := this; trace := tr |})).
  { intros Hn. rewrite Hval.
    destruct (all _); [exfalso; apply Hn, Hiff; reflexivity | reflexivity]. }
  split; [|split; [|split]].
  - intros Hin. rewrite Hval. apply Hiff in Hin. rewrite Hin. reflexivity.
  - exact Hout.
  - intros j b v Hv Hb Hend. apply Hout.
    eapply on_endpoint_not_inside; eassumption.
  - intros this' theta' tr' v. apply flat_two_values.
Qed.

(** ** numpy arithmetic on arrays of one length *)

Lemma binop_same_length op a b :
  length a = length b -> np.binop op a b = Ok (zip_with op a b).
Proof.
  intros H. unfold np.binop. rewrite H, Nat.eqb_refl. reflexivity.
Qed.

Lemma length_zip_with op a b :
  length a = length b -> length (zip_with op a b) = length a.
Proof.
  intros H. unfold zip_with. rewrite length_map, length_combine, H.
  apply Nat.min_id.
Qed.

Lemma nth_zip_with op a b k :
  length a = length b -> (k < length a)%nat ->
  nth k (zip_with op a b) 0 = op (nth k a 0) (nth k b 0).
Proof.
  intros Hlen Hk. unfold zip_with.
  pose proof (map_nth (fun p => op (fst p) (snd p)) (combine a b) (0, 0) k)
    as Hmap.
  cbv beta in Hmap.
  rewrite (nth_indep _ 0 (op (fst (0, 0)) (snd (0, 0)))).
  - rewrite Hmap, combine_nth by exact Hlen. reflexivity.
  - rewrite length_map, length_combine, <- Hlen, Nat.min_id. exact Hk.
Qed.

Lemma nth_map_R (f : R -> R) l k :
  (k < length l)%nat -> nth k (map f l) 0 = f (nth k l 0).
Proof.
  intros Hk. rewrite (nth_indep _ 0 (f 0)) by (rewrite length_map; exact Hk).
  apply map_nth.
Qed.

Lemma sum_upto_ext n f g :
  (forall k, (k < n)%nat -> f k = g k) -> sum_upto n f = sum_upto n g.
Proof.
  induction n as [|n IH]; intros H; simpl.
  - reflexivity.
  - rewrite IH by (intros k Hk; apply H; lia).
    rewrite (H n) by lia. reflexivity.
Qed.

Lemma fold_left_Rplus l a : fold_left Rplus l a = a + fold_left Rplus l 0.
Proof.
  revert a. induction l as [|v l IH]; intros a; simpl.
  - lra.
  - rewrite IH, (IH (0 + v)). lra.
Qed.

Lemma np_sum_nth l : np.sum l = sum_upto (length l) (fun k => nth k l 0).
Proof.
  unfold np.sum. induction l as [|v l IH] using rev_ind.
  - reflexivity.
  - rewrite fold_left_app, length_app, Nat.add_comm. simpl.
    rewrite IH. rewrite app_nth2, Nat.sub_diag by lia. simpl.
    f_equal. apply sum_upto_ext. intros k Hk.
    rewrite app_nth1 by exact Hk. reflexivity.
Qed.

(** The summand as the code computes it equals the summand as the
    specification writes it, for a non-zero uncertainty. *)
Lemma gaussian_term_code a m e :
  e <> 0 ->
  (a - m) ^ 2 * (1 / e ^ 2) + ln (2 * np.pi / (1 / e ^ 2)) =
  (a - m) ^ 2 / e ^ 2 + ln (2 * PI * e ^ 2).
Proof.
  intros He. unfold np.pi.
  assert (H2 : e ^ 2 <> 0) by (apply pow_nonzero; exact He).
  f_equal.
  - field. exact He.
  - f_equal. field. exact He.
Qed.

(** The sum the loop body adds for one dataset. *)
Lemma dataset_sum_value rvi model erri :
  length rvi = length model -> length erri = length model ->
  Forall (fun e => 0 < e) erri ->
  exists resid chi2 terms,
    np.sub rvi model = Ok resid /\
    np.mul (np.square resid) (np.rdiv 1 (np.square erri)) = Ok chi2 /\
    np.add chi2 (np.log (np.rdiv (2 * np.pi) (np.rdiv 1 (np.square erri))))
      = Ok terms /\
    np.sum terms = sum_upto (length rvi) (gaussian_term rvi model erri).
Proof.
  intros Hrv Herr Hpos.
  set (n := length model) in *.
  exists (zip_with Rminus rvi model).
  exists (zip_with Rmult (np.square (zip_with Rminus rvi model))
                   (np.rdiv 1 (np.square erri))).
  eexists.
  assert (L1 : length (zip_with Rminus rvi model) = n)
    by (rewrite length_zip_with; assumption).
  assert (L2 : length (np.square (zip_with Rminus rvi model)) = n)
    by (unfold np.square; rewrite length_map; exact L1).
  assert (L3 : length (np.rdiv 1 (np.square erri)) = n)
    by (unfold np.rdiv, np.square; rewrite !length_map; exact Herr).
  assert (L4 : length (zip_with Rmult (np.square (zip_with Rminus rvi model))
                                (np.rdiv 1 (np.square erri))) = n)
    by (rewrite length_zip_with; congruence).
  assert (L5 : length (np.log (np.rdiv (2 * np.pi)
                                 (np.rdiv 1 (np.square erri)))) = n)
    by (unfold np.log, np.rdiv at 1; rewrite !length_map; exact L3).
  split; [apply binop_same_length; exact Hrv|].
  split; [apply binop_same_length; congruence|].
  split; [apply binop_same_length; congruence|].
  rewrite np_sum_nth, length_zip_with, L4, Hrv by congruence.
  apply sum_upto_ext. intros k Hk.
  rewrite nth_zip_with by (try congruence; lia).
  rewrite nth_zip_with by (try congruence; lia).
  unfold np.log, np.rdiv, np.square in *.
  rewrite !nth_map_R by (rewrite ?length_map; lia).
  rewrite nth_zip_with by (try congruence; lia).
  unfold gaussian_term. apply gaussian_term_code.
  assert (Hin : In (nth k erri 0) erri) by (apply nth_In; lia).
  rewrite Forall_forall in Hpos. apply Hpos in Hin. lra.
Qed.

(** ** The log-likelihood *)

(** ** The prior inside and outside the bounds *)

Lemma example_bounds_pairs :
  bounds_pairs (bounds example_estimator) = Some example_pairs.
Proof. reflexivity. Qed.

Lemma flat_inside this theta bs tr :
  bounds_pairs (bounds this) = Some bs ->
  (length theta <= length bs)%nat ->
  strictly_inside bs theta ->
  call (flat theta) this tr = (Ok (Fin 0), {| self := this; trace := tr |}).
Proof.
  intros Hbs Hlen Hin. rewrite (flat_value this theta tr Hbs Hlen).
  apply (all_inside_iff bs theta Hlen) in Hin. rewrite Hin. reflexivity.
Qed.

Lemma flat_outside this theta bs tr :
  bounds_pairs (bounds this) = Some bs ->
  (length theta <= length bs)%nat ->
  ~ strictly_inside bs theta ->
  call (flat theta) this tr = (Ok NegInf, {| self := this; trace := tr |}).
Proof.
  intros Hbs Hlen Hout. rewrite (flat_value this theta tr Hbs Hlen).
  destruct (all _) eqn:E; [|reflexivity].
  exfalso. apply Hout, (all_inside_iff bs theta Hlen). exact E.
Qed.

Lemma example_inside : strictly_inside example_pairs [0; 0; 1; 1; -1; 0].
Proof. simpl. repeat split; lra. Qed.

Lemma example_on_endpoint :
  ~ strictly_inside example_pairs [4; 0; 1; 1; -1; 0].
Proof. simpl. intros [[_ H] _]. lra. Qed.

Lemma example_outside :
  ~ strictly_inside example_pairs [0; 0; 1; 1; -1; 7].
Proof. simpl. intros (_ & _ & _ & _ & _ & [_ H] & _). lra. Qed.

(** ** The log-posterior *)

Lemma flat_run theta s : flat theta s = (fst (flat theta s), s).
Proof.
  pose proof (pure_flat theta s) as H.
  destruct (flat theta s) as [r s']. simpl in *. subst s'. reflexivity.
Qed.

Lemma lnprob_rejected get_rvs theta s :
  fst (flat theta s) = Ok NegInf ->
  lnprob get_rvs theta s = (Ok NegInf, s).
Proof.
  intros H. unfold lnprob, bind. rewrite flat_run, H. reflexivity.
Qed.

Lemma lnprob_accepted get_rvs theta s :
  fst (flat theta s) = Ok (Fin 0) ->
  lnprob get_rvs theta s =
  (rbind (fst (lnlike get_rvs theta s)) (fun l => Ok (Fin l)),
   snd (lnlike get_rvs theta s)).
Proof.
  intros H. unfold lnprob, bind. rewrite flat_run, H. simpl.
  destruct (lnlike get_rvs theta s) as [[l|e] s']; simpl.
  - unfold ret. rewrite Rplus_0_l. reflexivity.
  - reflexivity.
Qed.

(** C2. The log-posterior is the log-prior plus the log-likelihood.
    When the flat prior is [-inf], [lnprob] returns [-inf] and leaves the
    trace as it was: the likelihood is not evaluated and the orbit model
    is not called, whatever that model would do.  When the prior is
    [0.0], [lnprob] is [lnlike]: the same value or exception, the same
    calls.  So, with bounds that are pairs of numbers, a theta on or
    outside a bound gets [-inf] without a call, and a theta strictly
    inside gets the likelihood. *)
Theorem lnprob_prior_plus_likelihood :
  forall get_rvs this theta tr,
    (fst (call (flat theta) this tr) = Ok NegInf ->
     call (lnprob get_rvs theta) this tr =
     (Ok NegInf, {| self := this; trace := tr |})) /\
    (fst (call (flat theta) this tr) = Ok (Fin 0) ->
     call (lnprob get_rvs theta) this tr =
     (rbind (fst (call (lnlike get_rvs theta) this tr))
            (fun l => Ok (Fin l)),
      snd (call (lnlike get_rvs theta) this tr))) /\
    (forall lp l,
       fst (call (flat theta) this tr) = Ok lp ->
       fst (call (lnlike get_rvs theta) this tr) = Ok l ->
       fst (call (lnprob get_rvs theta) this tr) =
       Ok (pyfloat_add_fin lp l)) /\
    (forall bs,
       bounds_pairs (bounds this) = Some bs ->
       (length theta <= length bs)%nat ->
       (~ strictly_inside bs theta ->
        call (lnprob get_rvs theta) this tr =
        (Ok NegInf, {| self := this; trace := tr |})) /\
       (strictly_inside bs theta ->
        call (lnprob get_rvs theta) this tr =
        (rbind (fst (call (lnlike get_rvs theta) this tr))
               (fun l => Ok (Fin l)),
         snd (call (lnlike get_rvs theta) this tr)))).
Proof.
  intros get_rvs this theta tr. unfold call.
  split; [|split; [|split]].
  - apply lnprob_rejected.
  - apply lnprob_accepted.
  - intros lp l Hlp Hl.
    destruct (flat_two_values theta _ Hlp) as [E|E]; subst lp.
    + rewrite (lnprob_accepted get_rvs theta _ Hlp). simpl. rewrite Hl.
      simpl. rewrite Rplus_0_l. reflexivity.
    + rewrite (lnprob_rejected get_rvs theta _ Hlp). reflexivity.
  - intros bs Hbs Hlen. split.
    + intros Hout. apply lnprob_rejected.
      fold (call (flat theta) this tr).
      rewrite (flat_outside this theta tr Hbs Hlen Hout). reflexivity.
    + intros Hin. apply lnprob_accepted.
      fold (call (flat theta) this tr).
      rewrite (flat_inside this theta tr Hbs Hlen Hin). reflexivity.
Qed.

(** ** Witnesses on the example estimator *)

(** C3 on the example estimator: a theta strictly inside, one with its
    first coordinate on the upper endpoint 4, one with its offset
    outside [(-1, 1)]. *)
Lemma flat_prior_values_witness :
  call (flat [0; 0; 1; 1; -1; 0]) example_estimator [] =
    (Ok (Fin 0), {| self := example_estimator; trace := [] |}) /\
  call (flat [4; 0; 1; 1; -1; 0]) example_estimator [] =
    (Ok NegInf, {| self := example_estimator; trace := [] |}) /\
  call (flat [0; 0; 1; 1; -1; 7]) example_estimator [] =
    (Ok NegInf, {| self := example_estimator; trace := [] |}).
Proof.
  assert (L : (6 <= 6)%nat) by lia.
  split; [|split].
  - apply (proj1 (@flat_prior_values example_estimator [0; 0; 1; 1; -1; 0]
                    example_pairs [] example_bounds_pairs L)).
    exact example_inside.
  - apply (proj1 (proj2 (proj2
             (@flat_prior_values example_estimator [4; 0; 1; 1; -1; 0]
                example_pairs [] example_bounds_pairs L)))
             0%nat (-4, 4) 4 eq_refl eq_refl).
    right. reflexivity.
  - apply (proj1 (proj2
             (@flat_prior_values example_estimator [0; 0; 1; 1; -1; 7]
                example_pairs [] example_bounds_pairs L))).
    exact example_outside.
Defined.

(** C2 on the example estimator: outside the bounds the posterior is
    [-inf] without a call, even of an orbit model that always raises;
    inside the bounds it is the likelihood. *)
Lemma lnprob_prior_plus_likelihood_witness :
  call (lnprob failing_orbit [0; 0; 1; 1; -1; 7]) example_estimator [] =
    (Ok NegInf, {| self := example_estimator; trace := [] |}) /\
  call (lnprob constant_orbit [0; 0; 1; 1; -1; 0]) example_estimator [] =
    (rbind (fst (call (lnlike constant_orbit [0; 0; 1; 1; -1; 0])
                      example_estimator []))
           (fun l => Ok (Fin l)),
     snd (call (lnlike constant_orbit [0; 0; 1; 1; -1; 0])
               example_estimator [])).
Proof.
  assert (L : (6 <= 6)%nat) by lia.
  split.
  - apply (proj1 (lnprob_prior_plus_likelihood failing_orbit
                    example_estimator [0; 0; 1; 1; -1; 7] [])).
    rewrite (@flat_outside example_estimator [0; 0; 1; 1; -1; 7]
               example_pairs [] example_bounds_pairs L example_outside).
    reflexivity.
  - apply (proj2 (proj2 (proj2 (proj2
             (lnprob_prior_plus_likelihood constant_orbit
                example_estimator [0; 0; 1; 1; -1; 0] [])))
             example_pairs example_bounds_pairs L)).
    exact example_inside.
Defined.

(** ** The length invariant *)

(** C6, as stated, fails: with two datasets and a [bounds_vz] of three
    pairs the construction succeeds and stores 8 bounds for a parameter
    vector of length 7. *)
Lemma bounds_length_counterexample :
  exists o,
    __init__ [[0]; [0]] [[1]; [1]] [[1]; [1]] [0; 0; 1; 1; -1; 0; 0]
             (PyTuple [pair_of (-1, 1); pair_of (-1, 1); pair_of (-1, 1)])
             default_bounds (PyInt 2) = Ok o /\
    length (guess o) = 7%nat /\
    n_datasets o = 2%Z /\
    length (bounds o) = 8%nat /\
    length (bounds o) <> length (guess o).
Proof.
  eexists. split; [reflexivity|]. simpl.
  repeat split; try reflexivity. discriminate.
Qed.

(** C6, amended.  A successfully constructed estimator stores a guess of
    length [5 + n_datasets]; its bounds have one entry more than the
    orbital bounds when [n_datasets == 1] and [len(bounds_vz)] entries
    more otherwise, so that [len(bounds) == len(guess) == 5 + n_datasets]
    when there are 5 orbital bounds and, for [n_datasets != 1],
    [bounds_vz] has [n_datasets] entries.  No call of [lnlike], [flat],
    [lnprob] or [ml_orbit] changes the object. *)
Theorem constructed_lengths :
  forall t_ rv_ rv_err_ guess_ bounds_vz bounds_ nd o,
    __init__ t_ rv_ rv_err_ guess_ bounds_vz bounds_ nd = Ok o ->
    Z.of_nat (length (guess o)) = (5 + n_datasets o)%Z /\
    (n_datasets o = 1%Z -> length (bounds o) = S (length bounds_)) /\
    (n_datasets o <> 1%Z ->
     exists items,
       bounds_vz = PyTuple items /\
       length (bounds o) = (length bounds_ + length items)%nat) /\
    (length bounds_ = 5%nat ->
     (n_datasets o = 1%Z \/
      exists items, bounds_vz = PyTuple items /\
                    Z.of_nat (length items) = n_datasets o) ->
     length (bounds o) = length (guess o)) /\
    (forall get_rvs minimize theta maxiter disp tr,
       self (snd (call (lnlike get_rvs theta) o tr)) = o /\
       self (snd (call (flat theta) o tr)) = o /\
       self (snd (call (lnprob get_rvs theta) o tr)) = o /\
       self (snd (call (ml_orbit get_rvs minimize maxiter disp) o tr)) = o).
Proof.
  intros t_ rv_ rv_err_ guess_ bounds_vz bounds_ nd o Hok.
  destruct (init_ok_inv _ _ _ _ _ _ _ Hok)
    as (n & Hnd & Hpos & Hlen & Hn & _ & _ & _ & Hg & Hb).
  rewrite Hg, Hn.
  split; [exact Hlen|]. split; [|split; [|split]].
  - intros H1. destruct Hb as [[_ Hb]|[Hne _]]; [|contradiction].
    rewrite Hb, length_app. simpl. lia.
  - intros H1. destruct Hb as [[He _]|[_ (items & Hvz & Hb)]];
      [contradiction|].
    exists items. split; [exact Hvz|]. rewrite Hb, length_app. reflexivity.
  - intros H5 Hshape.
    destruct Hb as [[He Hb]|[Hne (items & Hvz & Hb)]].
    + rewrite Hb, length_app, H5. simpl. lia.
    + destruct Hshape as [H1|(items' & Hvz' & Hcount)]; [contradiction|].
      rewrite Hvz in Hvz'. inversion Hvz'; subst items'.
      rewrite Hb, length_app, H5. lia.
  - intros get_rvs minimize theta maxiter disp tr. unfold call.
    rewrite keeps_lnlike, (pure_keeps_self (@pure_flat theta)),
      keeps_lnprob, keeps_ml_orbit.
    simpl. repeat split.
Qed.

(** C6 amended, on the construction of an estimator with one dataset. *)
Lemma constructed_lengths_witness :
  exists o,
    __init__ [[0; 1]] [[1; 2]] [[1; 2]] [0; 0; 1; 1; -1; 0]
             (pair_of (-1, 1)) default_bounds default_n_datasets = Ok o /\
    length (bounds o) = length (guess o) /\
    Z.of_nat (length (guess o)) = (5 + n_datasets o)%Z /\
    self (snd (call (lnprob constant_orbit [0; 0; 1; 1; -1; 0]) o [])) = o.
Proof.
  eexists. split; [reflexivity|].
  destruct (@constructed_lengths
              [[0; 1]] [[1; 2]] [[1; 2]] [0; 0; 1; 1; -1; 0]
              (pair_of (-1, 1)) default_bounds default_n_datasets _ eq_refl)
    as (Hg & _ & _ & Hb & Hself).
  split; [|split].
  - apply Hb; [reflexivity | left; reflexivity].
  - exact Hg.
  - apply (Hself constant_orbit (fun _ _ _ _ _ => Stop
             {| x := []; nit := 0; success := false; message := "stub" |})
             [0; 0; 1; 1; -1; 0] 0%Z false []).
Defined.

(** ** The default bounds *)

(** The orbit-model call of [lnlike] on one dataset: the parameter at
    position 0 of theta is [log_k], at position 1 [log_period], at
    position 2 [t0], at position 3 [w], at position 4 [log_e] and at
    position 5 [vz]. *)
Lemma lnlike_single_call get_rvs ti rvi erri g b k p t0_ w_ e v :
  calls_of (lnlike get_rvs [k; p; t0_; w_; e; v])
           {| n_datasets := 1; t := [ti]; rv := [rvi]; rv_err := [erri];
              guess := g; bounds := b |} =
  [EvOrbit {| log_k := k; log_period := p; t0 := t0_; w := w_;
              log_e := e; vz := v; ts := ti; nt := length ti |}].
Proof.
  unfold calls_of, call, lnlike, bind, get_self, range. simpl.
  unfold bind, lift, BinarySystem_get_rvs, bind, emit, lift. simpl.
  destruct (get_rvs _) as [model|err]; simpl; [|reflexivity].
  destruct (np.sub rvi model) as [resid|err]; simpl; [|reflexivity].
  destruct (np.mul _ _) as [chi2|err]; simpl; [|reflexivity].
  destruct (np.add _ _) as [terms|err]; simpl; reflexivity.
Qed.

Lemma strictly_inside_default lo hi k p t0_ w_ e v :
  strictly_inside
    [(-4, 4); (-4, 4); (0, 10000); (0, 360); (-4, -4.3e-5); (lo, hi)]
    [k; p; t0_; w_; e; v] <->
  (-4 < k < 4 /\ -4 < p < 4 /\ 0 < t0_ < 10000 /\ 0 < w_ < 360 /\
   -4 < e < -4.3e-5 /\ lo < v < hi).
Proof. simpl. tauto. Qed.

Lemma strictly_inside_dec_aux bs theta :
  (length theta <= length bs)%nat ->
  strictly_inside bs theta \/ ~ strictly_inside bs theta.
Proof.
  intros Hlen. rewrite <- (all_inside_iff bs theta Hlen).
  destruct (all _); [left; reflexivity | right; discriminate].
Qed.

(** The prior on a single-dataset estimator with the default orbital
    bounds. *)
Lemma flat_default_bounds ti rvi erri g lo hi k p t0_ w_ e v :
  result_of (flat [k; p; t0_; w_; e; v])
            {| n_datasets := 1; t := [ti]; rv := [rvi]; rv_err := [erri];
               guess := g;
               bounds := default_bounds ++ [pair_of (lo, hi)] |} = Ok (Fin 0)
  <->
  (-4 < k < 4 /\ -4 < p < 4 /\ 0 < t0_ < 10000 /\ 0 < w_ < 360 /\
   -4 < e < -4.3e-5 /\ lo < v < hi).
Proof.
  rewrite <- strictly_inside_default. unfold result_of.
  set (bs := [(-4, 4); (-4, 4); (0, 10000); (0, 360); (-4, -4.3e-5);
              (lo, hi)]).
  set (o := {| n_datasets := 1; t := [ti]; rv := [rvi]; rv_err := [erri];
               guess := g;
               bounds := default_bounds ++ [pair_of (lo, hi)] |}).
  assert (Hbs : bounds_pairs (bounds o) = Some bs) by reflexivity.
  assert (Hlen : (length [k; p; t0_; w_; e; v] <= length bs)%nat)
    by (simpl; lia).
  split.
  - intros H.
    destruct (strictly_inside_dec_aux bs [k; p; t0_; w_; e; v] Hlen)
      as [Hin|Hout]; [exact Hin|].
    rewrite (flat_outside o _ [] Hbs Hlen Hout) in H. discriminate.
  - intros Hin. rewrite (flat_inside o _ [] Hbs Hlen Hin). reflexivity.
Qed.

(** C7, as stated, fails: the default bound at the position of
    [log10(P)] is [(-4, 4)], not [(0, 10000)].  On an estimator built
    with the defaults, a theta whose [log_period] is 5 is handed to the
    orbit model as such by [lnlike] and is rejected by the prior. *)
Lemma default_log_period_counterexample :
  nth_error default_bounds 1 = Some (PyTuple [PyInt (-4); PyInt 4]) /\
  nth_error default_bounds 1 <> Some (PyTuple [PyInt 0; PyInt 10000]) /\
  exists o,
    __init__ [[0; 1]] [[1; 2]] [[1; 2]] [0; 0; 1; 1; -1; 0]
             (pair_of (-1, 1)) default_bounds default_n_datasets = Ok o /\
    calls_of (lnlike constant_orbit [0; 5; 1; 1; -1; 0]) o =
      [EvOrbit {| log_k := 0; log_period := 5; t0 := 1; w := 1;
                  log_e := -1; vz := 0; ts := [0; 1]; nt := 2 |}] /\
    0 <= 5 <= 10000 /\
    result_of (flat [0; 5; 1; 1; -1; 0]) o = Ok NegInf.
Proof.
  split; [reflexivity|]. split; [simpl; congruence|].
  eexists. split; [reflexivity|].
  split; [apply lnlike_single_call|]. split; [lra|].
  unfold result_of.
  rewrite (@flat_outside _ [0; 5; 1; 1; -1; 0] example_pairs []).
  - reflexivity.
  - reflexivity.
  - simpl; lia.
  - simpl. intros (_ & [_ H] & _). lra.
Qed.

(** C7, amended.  The default pairs are [(-4, 4)] for [log10(K)] and
    [(-4, 4)] for [log10(P)]; the pair [(0, 10000)] is the default of
    [t0].  On an estimator built with the default orbital bounds, theta
    has prior [0.0] exactly when the parameters it hands to the orbit
    model satisfy [-4 < log_k < 4], [-4 < log_period < 4],
    [0 < t0 < 10000], [0 < w < 360], [-4 < log_e < -4.3e-5] and the
    offset lies strictly inside its own bound. *)
Theorem default_bounds_by_parameter :
  forall get_rvs ti rvi erri g lo hi o k p t0_ w_ e v,
    __init__ [ti] [rvi] [erri] g (pair_of (lo, hi)) default_bounds
             default_n_datasets = Ok o ->
    bounds_pairs default_bounds =
      Some [(-4, 4); (-4, 4); (0, 10000); (0, 360); (-4, -4.3e-5)] /\
    calls_of (lnlike get_rvs [k; p; t0_; w_; e; v]) o =
      [EvOrbit {| log_k := k; log_period := p; t0 := t0_; w := w_;
                  log_e := e; vz := v; ts := ti; nt := length ti |}] /\
    (result_of (flat [k; p; t0_; w_; e; v]) o = Ok (Fin 0) <->
     (-4 < k < 4 /\ -4 < p < 4 /\ 0 < t0_ < 10000 /\ 0 < w_ < 360 /\
      -4 < e < -4.3e-5 /\ lo < v < hi)).
Proof.
  intros get_rvs ti rvi erri g lo hi o k p t0_ w_ e v Hok.
  destruct (init_ok_inv _ _ _ _ _ _ _ Hok)
    as (n & Hnd & _ & _ & Hn & Ht & Hrv & Herr & Hg & Hb).
  simpl in Hnd. inversion Hnd; subst n.
  destruct Hb as [[_ Hb]|[Hne _]]; [|congruence].
  destruct o as [n' t' rv' err' g' b']. simpl in *. subst.
  split; [reflexivity|]. split.
  - apply lnlike_single_call.
  - apply flat_default_bounds.
Qed.

(** C7 amended, on the example construction: [log10(P) = 3.5] lies
    inside the default bound, the call hands it on as [log_period]. *)
Lemma default_bounds_by_parameter_witness :
  exists o,
    __init__ [[0; 1]] [[1; 2]] [[1; 2]] [0; 0; 1; 1; -1; 0]
             (pair_of (-1, 1)) default_bounds default_n_datasets = Ok o /\
    calls_of (lnlike constant_orbit [0; 3.5; 1; 1; -1; 0]) o =
      [EvOrbit {| log_k := 0; log_period := 3.5; t0 := 1; w := 1;
                  log_e := -1; vz := 0; ts := [0; 1]; nt := 2 |}] /\
    result_of (flat [0; 3.5; 1; 1; -1; 0]) o = Ok (Fin 0).
Proof.
  eexists. split; [reflexivity|].
  destruct (@default_bounds_by_parameter constant_orbit
              [0; 1] [1; 2] [1; 2] [0; 0; 1; 1; -1; 0] (-1) 1 _
              0 3.5 1 1 (-1) 0 eq_refl) as (_ & Hcall & Hflat).
  split; [exact Hcall|].
  apply Hflat. repeat split; lra.
Defined.

(** ** No datasets *)

Lemma lnlike_no_datasets get_rvs theta s :
  n_datasets (self s) = 0%Z -> lnlike get_rvs theta s = (Ok 0, s).
Proof.
  intros H. unfold lnlike, bind, get_self, range. rewrite H. simpl.
  unfold ret. do 2 f_equal. lra.
Qed.

Lemma lnprob_no_datasets get_rvs theta s :
  n_datasets (self s) = 0%Z -> lnprob get_rvs theta s = flat theta s.
Proof.
  intros H. rewrite (flat_run theta s).
  destruct (fst (flat theta s)) as [lp|e] eqn:E.
  - destruct (flat_two_values theta s E) as [Hlp|Hlp]; subst lp.
    + rewrite (lnprob_accepted get_rvs theta s E).
      rewrite (lnlike_no_datasets get_rvs theta s H). reflexivity.
    + apply lnprob_rejected. exact E.
  - unfold lnprob, bind. rewrite flat_run, E. reflexivity.
Qed.

(** C10. The constructor accepts the dataset count 0 with a guess of
    length 5 (and a tuple as [bounds_vz], which is concatenated); on the
    estimator it builds, [lnlike] returns 0 for every theta without a
    call of the orbit model, and [lnprob] is the flat prior.  No count
    [n >= 0] is rejected as a count: with a guess of length [5 + n] the
    construction succeeds. *)
Theorem zero_datasets :
  forall t_ rv_ rv_err_ guess_ items bounds_,
    length guess_ = 5%nat ->
    exists o,
      __init__ t_ rv_ rv_err_ guess_ (PyTuple items) bounds_ (PyInt 0)
        = Ok o /\
      n_datasets o = 0%Z /\
      (forall get_rvs theta tr,
         call (lnlike get_rvs theta) o tr =
           (Ok 0, {| self := o; trace := tr |}) /\
         call (lnprob get_rvs theta) o tr = call (flat theta) o tr) /\
      (forall n g,
         (0 <= n)%Z -> Z.of_nat (length g) = (5 + n)%Z ->
         exists o',
           __init__ t_ rv_ rv_err_ g (PyTuple items) bounds_ (PyInt n)
             = Ok o' /\
           n_datasets o' = n).
Proof.
  intros t_ rv_ rv_err_ guess_ items bounds_ Hlen.
  eexists. split; [|split; [|split]].
  - apply init_ok_other with (n := 0%Z);
      [reflexivity | lia | lia | rewrite Hlen; reflexivity].
  - reflexivity.
  - intros get_rvs theta tr. unfold call. split.
    + apply lnlike_no_datasets. reflexivity.
    + apply lnprob_no_datasets. reflexivity.
  - intros n g Hn Hg. destruct (Z.eq_dec n 1) as [H1|H1].
    + subst n. eexists.
      split; [apply init_ok_single; [reflexivity | lia] | reflexivity].
    + eexists.
      split; [apply init_ok_other with (n := n);
                [reflexivity | exact Hn | exact H1 | exact Hg]
             | reflexivity].
Qed.

(** C10 with no data, the default orbital bounds and an empty
    [bounds_vz], even for an orbit model that always raises. *)
Lemma zero_datasets_witness :
  exists o,
    __init__ [] [] [] [0; 0; 1; 1; -1] (PyTuple []) default_bounds (PyInt 0)
      = Ok o /\
    call (lnlike failing_orbit [0; 0; 1; 1; -1]) o [] =
      (Ok 0, {| self := o; trace := [] |}) /\
    call (lnprob failing_orbit [0; 0; 1; 1; -1]) o [] =
      call (flat [0; 0; 1; 1; -1]) o [].
Proof.
  destruct (@zero_datasets [] [] [] [0; 0; 1; 1; -1] [] default_bounds
              eq_refl) as (o & Ho & _ & Hcalls & _).
  exists o. split; [exact Ho|].
  exact (Hcalls failing_orbit [0; 0; 1; 1; -1] []).
Defined.

(** ** Additivity over datasets *)


Lemma lnlike_two_datasets get_rvs tA rvA errA tB rvB errB g b
    k p t0_ w_ e vA vB :
  result_of (lnlike get_rvs [k; p; t0_; w_; e; vA; vB])
            {| n_datasets := 2; t := [tA; tB]; rv := [rvA; rvB];
               rv_err := [errA; errB]; guess := g; bounds := b |} =
  rbind (dataset_result get_rvs
           {| log_k := k; log_period := p; t0 := t0_; w := w_; log_e := e;
              vz := vA; ts := tA; nt := length tA |} rvA errA)
        (fun sA =>
  rbind (dataset_result get_rvs
           {| log_k := k; log_period := p; t0 := t0_; w := w_; log_e := e;
              vz := vB; ts := tB; nt := length tB |} rvB errB)
        (fun sB => Ok ((0 + sA + sB) * -0.5))).
Proof.
  unfold result_of, call, lnlike, bind, get_self, range, dataset_result.
  simpl.
  unfold bind, lift, BinarySystem_get_rvs, bind, emit, lift. simpl.
  destruct (get_rvs {| log_k := k; log_period := p; t0 := t0_; w := w_;
                       log_e := e; vz := vA; ts := tA;
                       nt := length tA |}) as [mA|err]; simpl; [|reflexivity].
  destruct (np.sub rvA mA) as [resid|err]; simpl; [|reflexivity].
  destruct (np.mul _ _) as [chi2|err]; simpl; [|reflexivity].
  destruct (np.add _ _) as [terms|err]; simpl; [|reflexivity].
  destruct (get_rvs _) as [mB|err]; simpl; [|reflexivity].
  destruct (np.sub rvB mB) as [residB|err]; simpl; [|reflexivity].
  destruct (np.mul _ _) as [chi2B|err]; simpl; [|reflexivity].
  destruct (np.add _ _) as [termsB|err]; simpl; reflexivity.
Qed.



(** ** The maximum-likelihood driver *)

Lemma blind_ret {A} (a : A) : trace_blind (ret a).
Proof. intros s1 s2 H. split; [reflexivity | exact H]. Qed.

Lemma blind_lift {A} (r : Result A) : trace_blind (lift r).
Proof. intros s1 s2 H. split; [reflexivity | exact H]. Qed.

Lemma blind_get_self : trace_blind get_self.
Proof. intros s1 s2 H. simpl. rewrite H. split; reflexivity. Qed.

Lemma blind_emit (e : Event) : trace_blind (emit e).
Proof. intros s1 s2 H. split; [reflexivity | exact H]. Qed.

Lemma blind_bind {A B} (m : M A) (k : A -> M B) :
  trace_blind m -> (forall a, trace_blind (k a)) ->
  trace_blind (v <- m ;; k v).
Proof.
  intros Hm Hk s1 s2 H. unfold bind.
  destruct (Hm s1 s2 H) as [Hr Hs].
  destruct (m s1) as [[a1|e1] s1']; destruct (m s2) as [[a2|e2] s2'];
    simpl in *; try discriminate.
  - inversion Hr; subst a2. apply Hk. exact Hs.
  - inversion Hr; subst e2. split; [reflexivity | exact Hs].
Qed.

Lemma blind_for_each {A B} (l : list A) (body : A -> B -> M B) :
  (forall a b, trace_blind (body a b)) ->
  forall acc, trace_blind (for_each l acc body).
Proof.
  intros Hb. induction l as [|a l IH]; intros acc; simpl.
  - apply blind_ret.
  - apply blind_bind; [apply Hb|]. intros acc'. apply IH.
Qed.

Ltac step_blind :=
  repeat first
    [ apply blind_ret | apply blind_lift | apply blind_get_self
    | apply blind_emit
    | apply blind_bind; [|intro] ].

Lemma blind_lnlike get_rvs theta : trace_blind (lnlike get_rvs theta).
Proof.
  unfold lnlike. apply blind_bind; [apply blind_get_self|]. intros this.
  apply blind_bind; [|intros; apply blind_ret].
  apply blind_for_each. intros i acc.
  unfold BinarySystem_get_rvs. step_blind.
Qed.

(** [lnlike] from any state: the result it has on the object alone, and
    the object unchanged. *)
Lemma lnlike_run get_rvs theta s :
  fst (lnlike get_rvs theta s) = result_of (lnlike get_rvs theta) (self s) /\
  self (snd (lnlike get_rvs theta s)) = self s.
Proof.
  split.
  - unfold result_of, call.
    apply (blind_lnlike get_rvs theta s {| self := self s; trace := [] |}).
    reflexivity.
  - apply keeps_lnlike.
Qed.

Lemma nll_run get_rvs theta s :
  fst (nll get_rvs theta s) = objective get_rvs (self s) theta /\
  self (snd (nll get_rvs theta s)) = self s.
Proof.
  unfold nll, bind, objective.
  destruct (lnlike_run get_rvs theta s) as [Hr Hs]. rewrite <- Hr.
  destruct (lnlike get_rvs theta s) as [[l|e] s']; simpl in *;
    split; auto.
Qed.

Lemma run_search_nll get_rvs srch :
  forall s,
    fst (run_search (nll get_rvs) srch s) =
      search_result (objective get_rvs (self s)) srch /\
    self (snd (run_search (nll get_rvs) srch s)) = self s.
Proof.
  induction srch as [res|p next IH]; intros s; simpl.
  - split; reflexivity.
  - unfold bind.
    destruct (nll_run get_rvs p s) as [Hr Hs]. rewrite <- Hr.
    destruct (nll get_rvs p s) as [[v|e] s']; simpl in *.
    + destruct (IH v s') as [IHr IHs].
      rewrite IHr, IHs, Hs. split; reflexivity.
    + split; [reflexivity | exact Hs].
Qed.

(** C8. [ml_orbit] runs the minimiser from the stored guess, with the
    method TNC, the stored bounds, [maxiter] and [disp], against the
    negated log-likelihood: each evaluation the minimiser asks for is
    answered by [-lnlike], the prior taking no part.  It returns the
    point [x] the minimiser reports, whatever the success flag says; the
    only exceptions are those of [lnlike] at a point the minimiser
    evaluates. *)
Theorem ml_orbit_minimizes_nll :
  forall get_rvs minimize this maxiter disp tr,
    fst (call (ml_orbit get_rvs minimize maxiter disp) this tr) =
    rbind (search_result
             (fun theta =>
                rbind (result_of (lnlike get_rvs theta) this)
                      (fun l => Ok (- l)))
             (minimize (guess this) "TNC"%string (bounds this)
                       maxiter disp))
          (fun res => Ok (x res)).
Proof.
  intros get_rvs minimize this maxiter disp tr.
  unfold call, ml_orbit. unfold bind at 1. unfold get_self. cbn [self fst].
  unfold bind at 1.
  destruct (run_search_nll get_rvs
              (minimize (guess this) "TNC"%string (bounds this) maxiter disp)
              {| self := this; trace := tr |}) as [Hr _].
  cbn [self] in Hr. unfold objective in Hr. rewrite <- Hr.
  destruct (run_search _ _ _) as [[res|e] s']; simpl; [|reflexivity].
  destruct disp; reflexivity.
Qed.

(** On the example estimator, whose guess lies inside the bounds,
    [ml_orbit] hands the point of the failed search back. *)
Example ml_orbit_returns_unconverged_point :
  fst (call (ml_orbit constant_orbit one_probe 200 false)
            example_estimator []) = Ok [0; 0; 1; 1; -1; 0].
Proof.
  unfold call, ml_orbit, bind, get_self, one_probe. simpl.
  unfold bind, nll, bind.
  destruct (lnlike_run constant_orbit [0; 0; 1; 1; -1; 0]
              {| self := example_estimator; trace := [] |}) as [Hr _].
  destruct (lnlike constant_orbit [0; 0; 1; 1; -1; 0] _) as [[l|e] s'].
  - reflexivity.
  - simpl in Hr. discriminate Hr.
Qed.

(** ** The loop of [lnlike] and its pure counterpart *)

Lemma for_each_fold get_rvs this theta (body : nat -> R -> M R) l :
  (forall i acc tr,
     body i acc {| self := this; trace := tr |} =
     match dataset_call this theta i with
     | Raise e => (Raise e, {| self := this; trace := tr |})
     | Ok c =>
       (rbind (dataset_value get_rvs this i c) (fun v => Ok (acc + v)),
        {| self := this; trace := tr ++ [EvOrbit c] |})
     end) ->
  forall acc tr,
    for_each l acc body {| self := this; trace := tr |} =
    (fst (lnlike_fold get_rvs this theta l acc),
     {| self := this;
        trace := tr ++ snd (lnlike_fold get_rvs this theta l acc) |}).
Proof.
  intros Hbody. induction l as [|i l IH]; intros acc tr; simpl.
  - rewrite app_nil_r. reflexivity.
  - unfold bind. rewrite Hbody.
    destruct (dataset_call this theta i) as [c|e]; simpl.
    + destruct (dataset_value get_rvs this i c) as [v|e]; simpl.
      * rewrite IH.
        destruct (lnlike_fold get_rvs this theta l (acc + v)) as [r evs].
        simpl. rewrite <- app_assoc. reflexivity.
      * reflexivity.
    + rewrite app_nil_r. reflexivity.
Qed.

(** [lnlike] is its loop: the result is the accumulated sum times
    [-0.5], the trace grows by the calls of the loop, the object stays. *)
Lemma lnlike_unfold get_rvs theta this tr :
  call (lnlike get_rvs theta) this tr =
  (rbind (fst (lnlike_fold get_rvs this theta (range (n_datasets this)) 0))
         (fun v => Ok (v * -0.5)),
   {| self := this;
      trace := tr ++ snd (lnlike_fold get_rvs this theta
                            (range (n_datasets this)) 0) |}).
Proof.
  unfold call, lnlike. unfold bind at 1. unfold get_self. cbn [self].
  unfold bind at 1.
  rewrite (@for_each_fold get_rvs this theta).
  - destruct (lnlike_fold _ _ _ _ _) as [[v|e] evs]; reflexivity.
  - intros i acc tr'.
    unfold dataset_call, dataset_value, BinarySystem_get_rvs, emit.
    unfold bind, lift, ret.
    destruct (getitem (t this) i) as [ti|e]; simpl; [|reflexivity].
    destruct (getitem theta 0) as [th0|e]; simpl; [|reflexivity].
    destruct (getitem theta 1) as [th1|e]; simpl; [|reflexivity].
    destruct (getitem theta 2) as [th2|e]; simpl; [|reflexivity].
    destruct (getitem theta 3) as [th3|e]; simpl; [|reflexivity].
    destruct (getitem theta 4) as [th4|e]; simpl; [|reflexivity].
    destruct (getitem theta (S (S (S (S (S i)))))) as [th5|e]; simpl;
      [|reflexivity].
    destruct (get_rvs _) as [model|e]; simpl; [|reflexivity].
    destruct (getitem (rv_err this) i) as [erri|e]; simpl; [|reflexivity].
    destruct (getitem (rv this) i) as [rvi|e]; simpl; [|reflexivity].
    destruct (np.sub rvi model) as [resid|e]; simpl; [|reflexivity].
    destruct (np.mul _ _) as [chi2|e]; simpl; [|reflexivity].
    destruct (np.add _ _) as [terms|e]; simpl; reflexivity.
Qed.

Lemma getitem_nth {A} (l : list A) (i : nat) (d : A) :
  (i < length l)%nat -> getitem l i = Ok (nth i l d).
Proof.
  intros H. unfold getitem. rewrite (nth_error_nth' l d H). reflexivity.
Qed.

Lemma getitem_beyond {A} (l : list A) (i : nat) :
  (length l <= i)%nat -> getitem l i = Raise IndexError.
Proof.
  intros H. unfold getitem.
  destruct (nth_error l i) eqn:E; [|reflexivity].
  apply nth_error_None in H. congruence.
Qed.

(** On a theta of full length the loop body makes the call the
    specification prescribes. *)
Lemma dataset_call_spec this theta i :
  (5 + i < length theta)%nat -> (i < length (t this))%nat ->
  dataset_call this theta i = Ok (orbit_call_spec this theta i).
Proof.
  intros Hth Ht. unfold dataset_call, orbit_call_spec.
  rewrite (getitem_nth (t this) [] Ht). cbn [rbind].
  rewrite (getitem_nth theta 0 (i := 0)) by lia. cbn [rbind].
  rewrite (getitem_nth theta 0 (i := 1)) by lia. cbn [rbind].
  rewrite (getitem_nth theta 0 (i := 2)) by lia. cbn [rbind].
  rewrite (getitem_nth theta 0 (i := 3)) by lia. cbn [rbind].
  rewrite (getitem_nth theta 0 (i := 4)) by lia. cbn [rbind].
  rewrite (getitem_nth theta 0 (i := (5 + i)%nat)) by lia. reflexivity.
Qed.

(** On a well-formed dataset whose model has the length of the dataset,
    the loop body adds the Gaussian sum of the dataset. *)
Lemma dataset_value_spec get_rvs this i c model_i :
  datasets_ok this -> (i < Z.to_nat (n_datasets this))%nat ->
  get_rvs c = Ok model_i ->
  length model_i = length (nth i (t this) []) ->
  dataset_value get_rvs this i c = Ok (dataset_term this model_i i).
Proof.
  intros (Ht & Hrv & Herr & Hsets) Hi Hcall Hlen.
  destruct (Hsets i Hi) as (Hrvi & Herri & Hpos).
  unfold dataset_value. rewrite Hcall. cbn [rbind].
  rewrite (getitem_nth (rv_err this) [] (i := i)) by lia. cbn [rbind].
  rewrite (getitem_nth (rv this) [] (i := i)) by lia. cbn [rbind].
  destruct (@dataset_sum_value (nth i (rv this) []) model_i
              (nth i (rv_err this) []))
    as (resid & chi2 & terms & E1 & E2 & E3 & E4);
    [congruence | congruence | exact Hpos |].
  rewrite E1. cbn [rbind]. rewrite E2. cbn [rbind]. rewrite E3. cbn [rbind].
  rewrite E4. reflexivity.
Qed.

(** The loop stops at the first dataset that raises: after its call when
    the failure comes from the model or the arithmetic. *)
Lemma lnlike_fold_stops get_rvs this theta (cs : nat -> OrbitCall)
    (vs : nat -> R) l i rest e :
  (forall j, In j l ->
     dataset_call this theta j = Ok (cs j) /\
     dataset_value get_rvs this j (cs j) = Ok (vs j)) ->
  dataset_call this theta i = Ok (cs i) ->
  dataset_value get_rvs this i (cs i) = Raise e ->
  forall acc,
    lnlike_fold get_rvs this theta (l ++ i :: rest) acc =
    (Raise e, map (fun j => EvOrbit (cs j)) (l ++ [i])).
Proof.
  intros H Hc Hv. induction l as [|k l IH]; intros acc; simpl.
  - rewrite Hc, Hv. reflexivity.
  - destruct (H k (or_introl eq_refl)) as [Hck Hvk]. rewrite Hck, Hvk.
    rewrite IH by (intros j Hj; apply H; right; exact Hj). reflexivity.
Qed.

(** The loop stops before the call at the first dataset whose lookups
    fail. *)
Lemma lnlike_fold_no_call get_rvs this theta (cs : nat -> OrbitCall)
    (vs : nat -> R) l i rest e :
  (forall j, In j l ->
     dataset_call this theta j = Ok (cs j) /\
     dataset_value get_rvs this j (cs j) = Ok (vs j)) ->
  dataset_call this theta i = Raise e ->
  forall acc,
    lnlike_fold get_rvs this theta (l ++ i :: rest) acc =
    (Raise e, map (fun j => EvOrbit (cs j)) l).
Proof.
  intros H Hc. induction l as [|k l IH]; intros acc; simpl.
  - rewrite Hc. reflexivity.
  - destruct (H k (or_introl eq_refl)) as [Hck Hvk]. rewrite Hck, Hvk.
    rewrite IH by (intros j Hj; apply H; right; exact Hj). reflexivity.
Qed.

Lemma range_split n i :
  (i < Z.to_nat n)%nat ->
  range n = seq 0 i ++ i :: seq (S i) (Z.to_nat n - S i).
Proof.
  intros H. unfold range.
  replace (Z.to_nat n) with (i + S (Z.to_nat n - S i))%nat at 1 by lia.
  rewrite seq_app. simpl. reflexivity.
Qed.

(** ** Error and edge behaviour of [lnlike] *)

Lemma dataset_call_app this theta extra i :
  (5 + i < length theta)%nat ->
  dataset_call this (theta ++ extra) i = dataset_call this theta i.
Proof.
  intros H. unfold dataset_call, getitem.
  rewrite !nth_error_app1 by lia. reflexivity.
Qed.

Lemma lnlike_fold_app get_rvs this theta extra l :
  (forall i, In i l -> (5 + i < length theta)%nat) ->
  forall acc,
    lnlike_fold get_rvs this (theta ++ extra) l acc =
    lnlike_fold get_rvs this theta l acc.
Proof.
  induction l as [|i l IH]; intros H acc; simpl.
  - reflexivity.
  - rewrite dataset_call_app by (apply H; left; reflexivity).
    destruct (dataset_call this theta i) as [c|e]; [|reflexivity].
    destruct (dataset_value get_rvs this i c) as [v|e]; [|reflexivity].
    rewrite IH by (intros j Hj; apply H; right; exact Hj). reflexivity.
Qed.

(** X1. [lnlike] reads only the first [5 + D] entries of theta: whatever
    is appended to a theta of at least that length changes neither the
    result nor the calls. *)
Theorem lnlike_ignores_extra_entries :
  forall get_rvs this theta extra tr,
    (5 + Z.to_nat (n_datasets this) <= length theta)%nat ->
    call (lnlike get_rvs (theta ++ extra)) this tr =
    call (lnlike get_rvs theta) this tr.
Proof.
  intros get_rvs this theta extra tr Hlen.
  rewrite !lnlike_unfold. rewrite lnlike_fold_app; [reflexivity|].
  intros i Hi. unfold range in Hi. apply in_seq in Hi. lia.
Qed.

(** X1 on the example estimator, with a seventh entry appended. *)
Lemma lnlike_ignores_extra_entries_witness :
  call (lnlike constant_orbit ([0; 0; 1; 1; -1; 3] ++ [99]))
       example_estimator [] =
  call (lnlike constant_orbit [0; 0; 1; 1; -1; 3]) example_estimator [].
Proof.
  apply (@lnlike_ignores_extra_entries constant_orbit example_estimator
           [0; 0; 1; 1; -1; 3] [99] []).
  simpl. lia.
Defined.

Lemma dataset_call_short this theta i :
  (length theta <= 5 + i)%nat ->
  exists e, dataset_call this theta i = Raise e.
Proof.
  intros H. unfold dataset_call.
  rewrite (getitem_beyond theta (i := (5 + i)%nat)) by exact H.
  destruct (getitem (t this) i); cbn [rbind]; [|eexists; reflexivity].
  destruct (getitem theta 0); cbn [rbind]; [|eexists; reflexivity].
  destruct (getitem theta 1); cbn [rbind]; [|eexists; reflexivity].
  destruct (getitem theta 2); cbn [rbind]; [|eexists; reflexivity].
  destruct (getitem theta 3); cbn [rbind]; [|eexists; reflexivity].
  destruct (getitem theta 4); cbn [rbind]; eexists; reflexivity.
Qed.

Lemma lnlike_fold_raises get_rvs this theta l i :
  In i l -> (exists e, dataset_call this theta i = Raise e) ->
  forall acc, exists e, fst (lnlike_fold get_rvs this theta l acc) = Raise e.
Proof.
  intros Hin [e He]. induction l as [|k l IH]; intros acc; simpl.
  - destruct Hin.
  - destruct (dataset_call this theta k) as [c|e'] eqn:Ek;
      [|eexists; reflexivity].
    destruct (dataset_value get_rvs this k c) as [v|e'];
      [|eexists; reflexivity].
    destruct Hin as [Hk|Hin]; [subst k; congruence|].
    destruct (IH Hin (acc + v)) as [e'' He''].
    destruct (lnlike_fold get_rvs this theta l (acc + v)) as [r evs].
    simpl in *. exists e''. exact He''.
Qed.

(** X2. [lnlike] does not check the length of theta, it fails on the
    way: with at least one dataset, on a theta shorter than [5 + D] it
    never returns a value; when theta has fewer than 6 entries and there
    is a first dataset, the exception is [IndexError] and the orbit
    model has not been called. *)
Theorem lnlike_short_theta_raises :
  forall get_rvs this theta tr,
    (0 < Z.to_nat (n_datasets this))%nat ->
    (length theta < 5 + Z.to_nat (n_datasets this))%nat ->
    (exists e, fst (call (lnlike get_rvs theta) this tr) = Raise e) /\
    (t this <> [] -> (length theta < 6)%nat ->
     call (lnlike get_rvs theta) this tr =
     (Raise IndexError, {| self := this; trace := tr |})).
Proof.
  intros get_rvs this theta tr HD Hlen. rewrite lnlike_unfold. split.
  - destruct (@lnlike_fold_raises get_rvs this theta
                (range (n_datasets this)) (length theta - 5)) with (acc := 0)
      as [e He].
    + unfold range. apply in_seq. lia.
    + apply dataset_call_short. lia.
    + simpl. rewrite He. exists e. reflexivity.
  - intros Ht H6.
    rewrite (@range_split (n_datasets this) 0) by lia. simpl.
    assert (Hcall : dataset_call this theta 0 = Raise IndexError).
    { unfold dataset_call. destruct (t this) as [|ti ts_]; [congruence|].
      unfold getitem at 1. cbn [nth_error rbind].
      destruct theta as [|a [|b [|c [|d [|e [|f rest]]]]]];
        simpl in H6; try lia; reflexivity. }
    rewrite Hcall. simpl. rewrite app_nil_r. reflexivity.
Qed.

(** X2 on the example estimator with a theta of five entries. *)
Lemma lnlike_short_theta_raises_witness :
  call (lnlike constant_orbit [0; 0; 1; 1; -1]) example_estimator [] =
  (Raise IndexError, {| self := example_estimator; trace := [] |}).
Proof.
  apply (proj2 (@lnlike_short_theta_raises constant_orbit example_estimator
                  [0; 0; 1; 1; -1] [] ltac:(simpl; lia) ltac:(simpl; lia))).
  - discriminate.
  - simpl. lia.
Defined.

(** [lnlike] on well-formed data, when dataset [i] is the first whose
    model or arithmetic raises. *)
Lemma lnlike_stops_at get_rvs this theta (model : nat -> list R) tr i e :
  length theta = (5 + Z.to_nat (n_datasets this))%nat ->
  datasets_ok this ->
  (i < Z.to_nat (n_datasets this))%nat ->
  (forall j, (j < i)%nat ->
     get_rvs (orbit_call_spec this theta j) = Ok (model j) /\
     length (model j) = length (nth j (t this) [])) ->
  dataset_value get_rvs this i (orbit_call_spec this theta i) = Raise e ->
  call (lnlike get_rvs theta) this tr =
  (Raise e,
   {| self := this;
      trace := tr ++ map (fun j => EvOrbit (orbit_call_spec this theta j))
                         (seq 0 (S i)) |}).
Proof.
  intros Hlen Hok Hi Hprev Hfail. rewrite lnlike_unfold.
  rewrite (range_split (n_datasets this) Hi).
  assert (Ht : length (t this) = Z.to_nat (n_datasets this))
    by (destruct Hok as (Ht & _); exact Ht).
  rewrite (@lnlike_fold_stops get_rvs this theta (orbit_call_spec this theta)
             (fun j => dataset_term this (model j) j) (seq 0 i) i _ e).
  - simpl fst. simpl snd. cbn [rbind]. rewrite <- seq_S. reflexivity.
  - intros j Hj. apply in_seq in Hj. simpl in Hj. destruct Hj as [_ Hj].
    destruct (Hprev j Hj) as [Hcall Hml]. split.
    + apply dataset_call_spec; lia.
    + apply dataset_value_spec; [exact Hok | lia | exact Hcall | exact Hml].
  - apply dataset_call_spec; lia.
  - exact Hfail.
Qed.

(** X3. An exception of the orbit model passes through [lnlike]
    unchanged: when dataset [i] is the first for which the model raises,
    [lnlike] raises that exception after the calls for datasets 0 to
    [i], and the later datasets are not evaluated. *)
Theorem lnlike_model_error_propagates :
  forall get_rvs this theta (model : nat -> list R) tr i e,
    length theta = (5 + Z.to_nat (n_datasets this))%nat ->
    datasets_ok this ->
    (i < Z.to_nat (n_datasets this))%nat ->
    (forall j, (j < i)%nat ->
       get_rvs (orbit_call_spec this theta j) = Ok (model j) /\
       length (model j) = length (nth j (t this) [])) ->
    get_rvs (orbit_call_spec this theta i) = Raise e ->
    call (lnlike get_rvs theta) this tr =
    (Raise e,
     {| self := this;
        trace := tr ++ map (fun j => EvOrbit (orbit_call_spec this theta j))
                           (seq 0 (S i)) |}).
Proof.
  intros get_rvs this theta model tr i e Hlen Hok Hi Hprev Hraise.
  apply lnlike_stops_at with (model := model); try assumption.
  unfold dataset_value. rewrite Hraise. reflexivity.
Qed.

(** X3 on the example estimator and the orbit model that always
    raises. *)
Lemma lnlike_model_error_propagates_witness :
  call (lnlike failing_orbit [0; 0; 1; 1; -1; 3]) example_estimator [] =
  (Raise (ModelError 0),
   {| self := example_estimator;
      trace := [EvOrbit {| log_k := 0; log_period := 0; t0 := 1; w := 1;
                           log_e := -1; vz := 3; ts := [0; 1];
                           nt := 2 |}] |}).
Proof.
  apply (@lnlike_model_error_propagates failing_orbit example_estimator
           [0; 0; 1; 1; -1; 3] (fun _ => []) [] 0%nat (ModelError 0)).
  - reflexivity.
  - unfold datasets_ok. simpl.
    split; [reflexivity|]. split; [reflexivity|]. split; [reflexivity|].
    intros i Hi. destruct i as [|i]; [|lia]. simpl.
    split; [reflexivity|]. split; [reflexivity|].
    repeat constructor; lra.
  - simpl. lia.
  - intros j Hj. lia.
  - reflexivity.
Defined.

Lemma binop_mismatch op a b :
  length a <> length b -> length a <> 1%nat -> length b <> 1%nat ->
  np.binop op a b = Raise ValueError.
Proof.
  intros Hab Ha Hb. unfold np.binop.
  destruct (Nat.eqb_spec (length a) (length b)) as [E|_]; [contradiction|].
  destruct a as [|x [|y a']]; destruct b as [|u [|v b']];
    simpl in *; try congruence; reflexivity.
Qed.

(** X4. A model array whose length differs from that of the observed
    velocities, neither being 1, makes [lnlike] raise [ValueError] at
    that dataset, after the call of the orbit model for it. *)
Theorem lnlike_length_mismatch :
  forall get_rvs this theta (model : nat -> list R) tr i,
    length theta = (5 + Z.to_nat (n_datasets this))%nat ->
    datasets_ok this ->
    (i < Z.to_nat (n_datasets this))%nat ->
    (forall j, (j < i)%nat ->
       get_rvs (orbit_call_spec this theta j) = Ok (model j) /\
       length (model j) = length (nth j (t this) [])) ->
    get_rvs (orbit_call_spec this theta i) = Ok (model i) ->
    length (model i) <> length (nth i (rv this) []) ->
    length (model i) <> 1%nat ->
    length (nth i (rv this) []) <> 1%nat ->
    call (lnlike get_rvs theta) this tr =
    (Raise ValueError,
     {| self := this;
        trace := tr ++ map (fun j => EvOrbit (orbit_call_spec this theta j))
                           (seq 0 (S i)) |}).
Proof.
  intros get_rvs this theta model tr i Hlen Hok Hi Hprev Hcall Hne Hm1 Hr1.
  apply lnlike_stops_at with (model := model); try assumption.
  destruct Hok as (Ht & Hrv & Herr & _).
  unfold dataset_value. rewrite Hcall. cbn [rbind].
  rewrite (getitem_nth (rv_err this) [] (i := i)) by lia. cbn [rbind].
  rewrite (getitem_nth (rv this) [] (i := i)) by lia. cbn [rbind].
  unfold np.sub. rewrite binop_mismatch by auto. reflexivity.
Qed.

(** X4 on the example estimator: two samples, three model values. *)
Lemma lnlike_length_mismatch_witness :
  call (lnlike overlong_orbit [0; 0; 1; 1; -1; 3]) example_estimator [] =
  (Raise ValueError,
   {| self := example_estimator;
      trace := [EvOrbit {| log_k := 0; log_period := 0; t0 := 1; w := 1;
                           log_e := -1; vz := 3; ts := [0; 1];
                           nt := 2 |}] |}).
Proof.
  apply (@lnlike_length_mismatch overlong_orbit example_estimator
           [0; 0; 1; 1; -1; 3] (fun _ => [3; 3; 3]) [] 0%nat).
  - reflexivity.
  - unfold datasets_ok. simpl.
    split; [reflexivity|]. split; [reflexivity|]. split; [reflexivity|].
    intros i Hi. destruct i as [|i]; [|lia]. simpl.
    split; [reflexivity|]. split; [reflexivity|].
    repeat constructor; lra.
  - simpl. lia.
  - intros j Hj. lia.
  - reflexivity.
  - simpl. discriminate.
  - simpl. discriminate.
  - simpl. discriminate.
Defined.

(** ** Order of the datasets, and a single uncertainty for a dataset *)

(** X6. The order of the datasets does not matter: exchanging the two
    datasets of an estimator together with their offsets in theta leaves
    the value of [lnlike] unchanged. *)
Theorem lnlike_dataset_order :
  forall get_rvs tA rvA errA tB rvB errB g b g' b' k p t0_ w_ e vA vB r,
    result_of (lnlike get_rvs [k; p; t0_; w_; e; vA; vB])
              {| n_datasets := 2; t := [tA; tB]; rv := [rvA; rvB];
                 rv_err := [errA; errB]; guess := g; bounds := b |} = Ok r ->
    result_of (lnlike get_rvs [k; p; t0_; w_; e; vB; vA])
              {| n_datasets := 2; t := [tB; tA]; rv := [rvB; rvA];
                 rv_err := [errB; errA]; guess := g'; bounds := b' |} = Ok r.
Proof.
  intros get_rvs tA rvA errA tB rvB errB g b g' b' k p t0_ w_ e vA vB r H.
  rewrite lnlike_two_datasets in H. rewrite lnlike_two_datasets.
  destruct (dataset_result get_rvs _ rvA errA) as [sA|err];
    simpl in *; [|discriminate].
  destruct (dataset_result get_rvs _ rvB errB) as [sB|err];
    simpl in *; [|discriminate].
  inversion H. f_equal. lra.
Qed.

(** X6 on a dataset of two samples and a dataset of one sample. *)
Lemma lnlike_dataset_order_witness :
  exists r,
    result_of (lnlike constant_orbit [0; 0; 1; 1; -1; 3; 4])
              {| n_datasets := 2; t := [[0; 1]; [7]]; rv := [[1; 2]; [5]];
                 rv_err := [[1; 2]; [1]]; guess := []; bounds := [] |}
    = Ok r /\
    result_of (lnlike constant_orbit [0; 0; 1; 1; -1; 4; 3])
              {| n_datasets := 2; t := [[7]; [0; 1]]; rv := [[5]; [1; 2]];
                 rv_err := [[1]; [1; 2]]; guess := []; bounds := [] |}
    = Ok r.
Proof.
  eexists. split; [reflexivity|].
  apply (@lnlike_dataset_order constant_orbit [0; 1] [1; 2] [1; 2] [7] [5] [1]
           [] [] [] [] 0 0 1 1 (-1) 3 4).
  reflexivity.
Defined.

Lemma binop_scalar_r op a y :
  np.binop op a [y] = Ok (map (fun v => op v y) a).
Proof.
  unfold np.binop. destruct a as [|u [|v a']]; reflexivity.
Qed.

Lemma zip_with_repeat op a y :
  zip_with op a (repeat y (length a)) = map (fun v => op v y) a.
Proof.
  unfold zip_with. induction a as [|u a IH]; simpl.
  - reflexivity.
  - rewrite IH. reflexivity.
Qed.

Lemma binop_repeat op a y :
  np.binop op a (repeat y (length a)) = Ok (map (fun v => op v y) a).
Proof.
  rewrite binop_same_length by (rewrite repeat_length; reflexivity).
  rewrite zip_with_repeat. reflexivity.
Qed.

Lemma binop_length op a b r :
  np.binop op a b = Ok r -> length r = length a \/ length a = 1%nat.
Proof.
  unfold np.binop.
  destruct (Nat.eqb_spec (length a) (length b)) as [E|E].
  - intros H. injection H as <-. left.
    rewrite length_map, length_combine, E. apply Nat.min_id.
  - destruct a as [|u [|v a']].
    + destruct b as [|y [|z b']]; intros H; try discriminate H.
      injection H as <-. left. reflexivity.
    + intros _. right. reflexivity.
    + destruct b as [|y [|z b']]; intros H; try discriminate H.
      injection H as <-. left. simpl. rewrite length_map. reflexivity.
Qed.

(** X7. A dataset may carry one uncertainty for all its samples: an
    [rv_err] array of length 1 is broadcast, and [lnlike] returns what it
    returns for the array that repeats that uncertainty at every
    sample. *)
Theorem lnlike_single_uncertainty :
  forall get_rvs ti rvi sigma g b theta,
    result_of (lnlike get_rvs theta)
              {| n_datasets := 1; t := [ti]; rv := [rvi];
                 rv_err := [[sigma]]; guess := g; bounds := b |} =
    result_of (lnlike get_rvs theta)
              {| n_datasets := 1; t := [ti]; rv := [rvi];
                 rv_err := [repeat sigma (length rvi)];
                 guess := g; bounds := b |}.
Proof.
  intros get_rvs ti rvi sigma g b theta.
  unfold result_of. rewrite !lnlike_unfold. simpl fst.
  unfold range. simpl Z.to_nat. simpl seq. simpl lnlike_fold.
  assert (Hcall : forall e1 e2,
            dataset_call {| n_datasets := 1; t := [ti]; rv := [rvi];
                            rv_err := e1; guess := g; bounds := b |} theta 0 =
            dataset_call {| n_datasets := 1; t := [ti]; rv := [rvi];
                            rv_err := e2; guess := g; bounds := b |} theta 0)
    by reflexivity.
  rewrite (Hcall [[sigma]] [repeat sigma (length rvi)]).
  destruct (dataset_call _ theta 0) as [c|e]; [|reflexivity].
  assert (Hval :
            dataset_value get_rvs
              {| n_datasets := 1; t := [ti]; rv := [rvi];
                 rv_err := [[sigma]]; guess := g; bounds := b |} 0 c =
            dataset_value get_rvs
              {| n_datasets := 1; t := [ti]; rv := [rvi];
                 rv_err := [repeat sigma (length rvi)];
                 guess := g; bounds := b |} 0 c).
  { unfold dataset_value. destruct (get_rvs c) as [model|e]; [|reflexivity].
    cbn [rbind]. unfold getitem. cbn [rv rv_err nth_error rbind].
    destruct (np.sub rvi model) as [resid|e] eqn:Esub; [|reflexivity].
    cbn [rbind].
    destruct (binop_length _ _ _ Esub) as [Hlen|H1].
    - assert (Hsq : length (np.square resid) = length rvi)
        by (unfold np.square; rewrite length_map; exact Hlen).
      unfold np.rdiv at 1 3 4 6. unfold np.square at 2 3 5 6.
      unfold np.log. rewrite !map_repeat. cbn [map].
      unfold np.mul, np.add.
      rewrite binop_scalar_r. rewrite <- Hsq. rewrite binop_repeat.
      cbn [rbind].
      unfold np.rdiv. rewrite !map_repeat. cbn [map].
      rewrite binop_scalar_r.
      assert (Hchi : length (map (fun v => v * (1 / sigma ^ 2))
                             (np.square resid)) = length (np.square resid))
        by (rewrite length_map; reflexivity).
      rewrite <- Hchi. rewrite binop_repeat. reflexivity.
    - destruct rvi as [|u [|u' rvi']]; simpl in H1; try lia. reflexivity. }
  rewrite Hval. reflexivity.
Qed.

(** ** Bounds that do not fit theta *)

Lemma comprehension_raises {A B} (l1 l2 : list A) (a : A) (f : A -> M B)
    (g : A -> B) e s :
  (forall a', In a' l1 -> f a' s = (Ok (g a'), s)) ->
  f a s = (Raise e, s) ->
  comprehension (l1 ++ a :: l2) f s = (Raise e, s).
Proof.
  intros H1 Ha. induction l1 as [|a1 l1 IH]; simpl.
  - unfold bind. rewrite Ha. reflexivity.
  - unfold bind. rewrite (H1 a1 (or_introl eq_refl)).
    fold (@comprehension A B). unfold bind in IH.
    rewrite IH by (intros a' Ha'; apply H1; right; exact Ha').
    reflexivity.
Qed.

Lemma seq_split n k :
  (k < n)%nat -> seq 0 n = seq 0 k ++ k :: seq (S k) (n - S k).
Proof.
  intros H.
  replace n with (k + S (n - S k))%nat at 1 by lia.
  rewrite seq_app. reflexivity.
Qed.

Lemma in_bounds_beyond this theta k s :
  (length (bounds this) <= k)%nat ->
  in_bounds this theta k s = (Raise IndexError, s).
Proof.
  intros H. unfold in_bounds, bind, lift.
  rewrite getitem_beyond by exact H. reflexivity.
Qed.

Lemma in_bounds_subscript_error this theta k o e s :
  nth_error (bounds this) k = Some o -> subscript o 0 = Raise e ->
  in_bounds this theta k s = (Raise e, s).
Proof.
  intros Ho He. unfold in_bounds, bind, lift, getitem.
  rewrite Ho, He. reflexivity.
Qed.

(** [flat] when the bounds start with [k] pairs and the test at position
    [k] raises, on a theta that reaches position [k]. *)
Lemma flat_raises_at this theta good rest bs e s :
  bounds this = good ++ rest ->
  bounds_pairs good = Some bs ->
  self s = this ->
  (length good < length theta)%nat ->
  in_bounds this theta (length good) s = (Raise e, s) ->
  flat theta s = (Raise e, s).
Proof.
  intros Hb Hbs Hs Hlen Hk. unfold flat. unfold bind at 1. unfold get_self.
  cbn [fst snd]. rewrite Hs. unfold bind.
  rewrite (seq_split Hlen).
  rewrite (@comprehension_raises _ _ _ _ _ _
             (fun j => inside (nth j bs (0, 0)) (nth j theta 0)) e s).
  - reflexivity.
  - intros j Hj. apply in_seq in Hj. simpl in Hj.
    destruct (bounds_pairs_nth _ Hbs) as [Hl Hnth].
    apply in_bounds_pair.
    + destruct (Hnth j (nth j bs (0, 0))) as (o & Ho & Hp).
      { apply nth_error_nth'. lia. }
      exists o. split; [|exact Hp].
      rewrite Hb, nth_error_app1 by lia. exact Ho.
    + apply nth_error_nth'. lia.
  - exact Hk.
Qed.

Lemma lnprob_raises get_rvs theta s e :
  flat theta s = (Raise e, s) -> lnprob get_rvs theta s = (Raise e, s).
Proof. intros H. unfold lnprob, bind. rewrite H. reflexivity. Qed.

(** X8. A theta longer than the bounds is not rejected as out of
    bounds: [flat] raises [IndexError], whatever the values of theta,
    and so does [lnprob], before any call of the orbit model. *)
Theorem flat_theta_longer_than_bounds :
  forall get_rvs this theta bs tr,
    bounds_pairs (bounds this) = Some bs ->
    (length bs < length theta)%nat ->
    call (flat theta) this tr =
      (Raise IndexError, {| self := this; trace := tr |}) /\
    call (lnprob get_rvs theta) this tr =
      (Raise IndexError, {| self := this; trace := tr |}).
Proof.
  intros get_rvs this theta bs tr Hbs Hlen.
  destruct (bounds_pairs_nth _ Hbs) as [Hl _].
  assert (Hflat : call (flat theta) this tr =
                  (Raise IndexError, {| self := this; trace := tr |})).
  { unfold call.
    apply (@flat_raises_at this theta (bounds this) [] bs).
    - rewrite app_nil_r. reflexivity.
    - exact Hbs.
    - reflexivity.
    - lia.
    - apply in_bounds_beyond. lia. }
  split; [exact Hflat|]. apply lnprob_raises. exact Hflat.
Qed.

(** X8 on the example estimator, whose six bounds meet a theta of seven
    entries. *)
Lemma flat_theta_longer_than_bounds_witness :
  call (flat [0; 0; 1; 1; -1; 0; 0]) example_estimator [] =
    (Raise IndexError, {| self := example_estimator; trace := [] |}) /\
  call (lnprob constant_orbit [0; 0; 1; 1; -1; 0; 0]) example_estimator [] =
    (Raise IndexError, {| self := example_estimator; trace := [] |}).
Proof.
  apply (@flat_theta_longer_than_bounds constant_orbit example_estimator
           [0; 0; 1; 1; -1; 0; 0] example_pairs [] example_bounds_pairs).
  simpl. lia.
Defined.

(** ** Shapes of [bounds_vz] the constructor lets through *)

(** X9. With one dataset the constructor takes any object as
    [bounds_vz].  When that object cannot be subscripted at 0 (it is not
    a tuple, or it is the empty tuple) the estimator is built all the
    same, and the failure shows only later: for every theta that reaches
    the offset position, [flat] and [lnprob] raise ([TypeError], or
    [IndexError] for the empty tuple) and the orbit model is not
    called. *)
Theorem single_dataset_bounds_vz_unchecked :
  forall t_ rv_ rv_err_ guess_ bounds_vz bounds_ nd bs e get_rvs theta tr,
    isinstance_int nd = Some 1%Z -> length guess_ = 6%nat ->
    bounds_pairs bounds_ = Some bs ->
    subscript bounds_vz 0 = Raise e ->
    (length bounds_ < length theta)%nat ->
    exists o,
      __init__ t_ rv_ rv_err_ guess_ bounds_vz bounds_ nd = Ok o /\
      call (flat theta) o tr = (Raise e, {| self := o; trace := tr |}) /\
      call (lnprob get_rvs theta) o tr =
        (Raise e, {| self := o; trace := tr |}).
Proof.
  intros t_ rv_ rv_err_ guess_ bounds_vz bounds_ nd bs e get_rvs theta tr
         Hnd Hg Hbs He Hlen.
  eexists. split; [apply init_ok_single; assumption|].
  set (o := {| n_datasets := 1; t := t_; rv := rv_; rv_err := rv_err_;
               guess := guess_; bounds := bounds_ ++ [bounds_vz] |}).
  assert (Hflat : call (flat theta) o tr =
                  (Raise e, {| self := o; trace := tr |})).
  { unfold call.
    apply (@flat_raises_at o theta bounds_ [bounds_vz] bs);
      [reflexivity | exact Hbs | reflexivity | exact Hlen |].
    apply in_bounds_subscript_error with (o := bounds_vz).
    - simpl. rewrite nth_error_app2, Nat.sub_diag by lia. reflexivity.
    - exact He. }
  split; [exact Hflat|]. apply lnprob_raises. exact Hflat.
Qed.

(** X9 with [None] as the offset bound. *)
Lemma single_dataset_bounds_vz_unchecked_witness :
  exists o,
    __init__ [[0; 1]] [[1; 2]] [[1; 2]] [0; 0; 1; 1; -1; 0]
             PyNone default_bounds (PyInt 1) = Ok o /\
    call (flat [0; 0; 1; 1; -1; 0]) o [] =
      (Raise TypeError, {| self := o; trace := [] |}) /\
    call (lnprob constant_orbit [0; 0; 1; 1; -1; 0]) o [] =
      (Raise TypeError, {| self := o; trace := [] |}).
Proof.
  apply (@single_dataset_bounds_vz_unchecked
           [[0; 1]] [[1; 2]] [[1; 2]] [0; 0; 1; 1; -1; 0]
           PyNone default_bounds (PyInt 1)
           [(-4, 4); (-4, 4); (0, 10000); (0, 360); (-4, -4.3e-5)]
           TypeError constant_orbit [0; 0; 1; 1; -1; 0] []).
  - reflexivity.
  - reflexivity.
  - reflexivity.
  - reflexivity.
  - simpl. lia.
Defined.

(** X10. With a dataset count other than 1 the constructor concatenates
    any tuple as [bounds_vz] without looking at its items.  When the
    first item cannot be subscripted at 0 (as when one pair [(lo, hi)]
    is given for several datasets: its items are numbers) the estimator
    is built, and for every theta that reaches the first offset position
    [flat] and [lnprob] raise and the orbit model is not called. *)
Theorem many_datasets_bounds_vz_unchecked :
  forall t_ rv_ rv_err_ guess_ item items bounds_ nd n bs e get_rvs theta tr,
    isinstance_int nd = Some n -> (0 <= n)%Z -> n <> 1%Z ->
    Z.of_nat (length guess_) = (5 + n)%Z ->
    bounds_pairs bounds_ = Some bs ->
    subscript item 0 = Raise e ->
    (length bounds_ < length theta)%nat ->
    exists o,
      __init__ t_ rv_ rv_err_ guess_ (PyTuple (item :: items)) bounds_ nd
        = Ok o /\
      call (flat theta) o tr = (Raise e, {| self := o; trace := tr |}) /\
      call (lnprob get_rvs theta) o tr =
        (Raise e, {| self := o; trace := tr |}).
Proof.
  intros t_ rv_ rv_err_ guess_ item items bounds_ nd n bs e get_rvs theta tr
         Hnd Hn H1 Hg Hbs He Hlen.
  eexists. split; [eapply init_ok_other; eassumption|].
  set (o := {| n_datasets := n; t := t_; rv := rv_; rv_err := rv_err_;
               guess := guess_; bounds := bounds_ ++ item :: items |}).
  assert (Hflat : call (flat theta) o tr =
                  (Raise e, {| self := o; trace := tr |})).
  { unfold call.
    apply (@flat_raises_at o theta bounds_ (item :: items) bs);
      [reflexivity | exact Hbs | reflexivity | exact Hlen |].
    apply in_bounds_subscript_error with (o := item).
    - simpl. rewrite nth_error_app2, Nat.sub_diag by lia. reflexivity.
    - exact He. }
  split; [exact Hflat|]. apply lnprob_raises. exact Hflat.
Qed.

(** X10 with two datasets and the single pair [(-1, 1)] as
    [bounds_vz]. *)
Lemma many_datasets_bounds_vz_unchecked_witness :
  exists o,
    __init__ [[0]; [0]] [[1]; [1]] [[1]; [1]] [0; 0; 1; 1; -1; 0; 0]
             (pair_of (-1, 1)) default_bounds (PyInt 2) = Ok o /\
    call (flat [0; 0; 1; 1; -1; 0; 0]) o [] =
      (Raise TypeError, {| self := o; trace := [] |}) /\
    call (lnprob constant_orbit [0; 0; 1; 1; -1; 0; 0]) o [] =
      (Raise TypeError, {| self := o; trace := [] |}).
Proof.
  apply (@many_datasets_bounds_vz_unchecked
           [[0]; [0]] [[1]; [1]] [[1]; [1]] [0; 0; 1; 1; -1; 0; 0]
           (PyFloat (-1)) [PyFloat 1] default_bounds (PyInt 2) 2%Z
           [(-4, 4); (-4, 4); (0, 10000); (0, 360); (-4, -4.3e-5)]
           TypeError constant_orbit [0; 0; 1; 1; -1; 0; 0] []).
  - reflexivity.
  - lia.
  - lia.
  - reflexivity.
  - reflexivity.
  - reflexivity.
  - simpl. lia.
Defined.

(** ** Where the orbit model is called *)

Lemma appends_on_ret {A} this P (a : A) : appends_on this P (ret a).
Proof.
  intros tr. exists []. split; [|constructor].
  unfold call, ret. simpl. rewrite app_nil_r. reflexivity.
Qed.

Lemma appends_on_bind {A B} this P (m : M A) (k : A -> M B) :
  appends_on this P m -> (forall a, appends_on this P (k a)) ->
  appends_on this P (v <- m ;; k v).
Proof.
  intros Hm Hk tr. destruct (Hm tr) as (evs & Hs & HP).
  unfold call, bind in *.
  destruct (m {| self := this; trace := tr |}) as [[a|e] s']; simpl in Hs;
    subst s'.
  - destruct (Hk a (tr ++ evs)) as (evs' & Hs' & HP').
    unfold call in Hs'. exists (evs ++ evs'). split.
    + rewrite Hs', app_assoc. reflexivity.
    + apply Forall_app. split; assumption.
  - exists evs. split; [reflexivity | exact HP].
Qed.

Lemma appends_on_weaken {A} this (P Q : Event -> Prop) (m : M A) :
  (forall ev, P ev -> Q ev) -> appends_on this P m -> appends_on this Q m.
Proof.
  intros HPQ Hm tr. destruct (Hm tr) as (evs & Hs & HP).
  exists evs. split; [exact Hs|].
  eapply Forall_impl; [exact HPQ | exact HP].
Qed.

(** The calls of the loop are the calls the body builds from theta. *)
Lemma lnlike_fold_events get_rvs this theta l :
  forall acc,
    Forall (fun ev => exists i c,
              ev = EvOrbit c /\ dataset_call this theta i = Ok c)
           (snd (lnlike_fold get_rvs this theta l acc)).
Proof.
  induction l as [|i l IH]; intros acc; simpl.
  - constructor.
  - destruct (dataset_call this theta i) as [c|e] eqn:Ec; [|constructor].
    destruct (dataset_value get_rvs this i c) as [v|e].
    + specialize (IH (acc + v)).
      destruct (lnlike_fold get_rvs this theta l (acc + v)) as [r evs].
      simpl in *. constructor; [|exact IH].
      exists i, c. split; [reflexivity | exact Ec].
    + simpl. constructor; [|constructor].
      exists i, c. split; [reflexivity | exact Ec].
Qed.

Lemma getitem_ok {A} (l : list A) i a :
  getitem l i = Ok a -> nth_error l i = Some a.
Proof.
  unfold getitem. destruct (nth_error l i); intros H; inversion H.
  reflexivity.
Qed.

(** The parameters of a call the body builds are entries of theta. *)
Lemma dataset_call_fields this theta i c :
  dataset_call this theta i = Ok c ->
  nth_error theta 0 = Some (log_k c) /\
  nth_error theta 1 = Some (log_period c) /\
  nth_error theta 2 = Some (t0 c) /\
  nth_error theta 3 = Some (w c) /\
  nth_error theta 4 = Some (log_e c) /\
  nth_error theta (5 + i) = Some (vz c).
Proof.
  unfold dataset_call.
  destruct (getitem (t this) i) as [ti|e]; cbn [rbind]; [|discriminate].
  destruct (getitem theta 0) as [th0|e] eqn:E0; cbn [rbind]; [|discriminate].
  destruct (getitem theta 1) as [th1|e] eqn:E1; cbn [rbind]; [|discriminate].
  destruct (getitem theta 2) as [th2|e] eqn:E2; cbn [rbind]; [|discriminate].
  destruct (getitem theta 3) as [th3|e] eqn:E3; cbn [rbind]; [|discriminate].
  destruct (getitem theta 4) as [th4|e] eqn:E4; cbn [rbind]; [|discriminate].
  destruct (getitem theta (5 + i)) as [th5|e] eqn:E5; cbn [rbind];
    [|discriminate].
  intros H. injection H as <-. cbn [log_k log_period t0 w log_e vz].
  split; [apply getitem_ok; exact E0|].
  split; [apply getitem_ok; exact E1|].
  split; [apply getitem_ok; exact E2|].
  split; [apply getitem_ok; exact E3|].
  split; [apply getitem_ok; exact E4|].
  apply getitem_ok; exact E5.
Qed.

Lemma strictly_inside_nth bs theta j v :
  strictly_inside bs theta -> nth_error theta j = Some v ->
  inside_at bs j v.
Proof.
  revert bs j. induction theta as [|u theta IH]; intros bs j Hin Hv.
  - destruct j; discriminate.
  - destruct bs as [|b bs]; [contradiction|].
    destruct Hin as [Hb Hrest]. destruct j as [|j]; simpl in Hv.
    + inversion Hv; subst u. exists b. split; [reflexivity | exact Hb].
    + destruct (IH bs j Hrest Hv) as (b' & Hb' & Hv').
      exists b'. split; [exact Hb' | exact Hv'].
Qed.

(** [lnlike] appends calls of the orbit model and nothing else. *)
Lemma lnlike_appends_calls get_rvs this theta :
  appends_on this
    (fun ev => exists i c, ev = EvOrbit c /\ dataset_call this theta i = Ok c)
    (lnlike get_rvs theta).
Proof.
  intros tr. rewrite lnlike_unfold. eexists. split; [reflexivity|].
  apply lnlike_fold_events.
Qed.

(** The posterior calls the orbit model only inside the bounds. *)
Lemma lnprob_appends_inside get_rvs this theta bs :
  bounds_pairs (bounds this) = Some bs ->
  appends_on this (call_inside bs) (lnprob get_rvs theta).
Proof.
  intros Hbs tr.
  assert (Hnone : forall r,
            call (lnprob get_rvs theta) this tr =
            (r, {| self := this; trace := tr |}) ->
            exists evs,
              snd (call (lnprob get_rvs theta) this tr) =
              {| self := this; trace := tr ++ evs |} /\
              Forall (call_inside bs) evs).
  { intros r Hr. exists []. rewrite Hr, app_nil_r.
    split; [reflexivity | constructor]. }
  destruct (Nat.le_gt_cases (length theta) (length bs)) as [Hlen|Hlen].
  - destruct (strictly_inside_dec_aux bs theta Hlen) as [Hin|Hout].
    + unfold call. rewrite lnprob_accepted
        by (fold (call (flat theta) this tr);
            rewrite (flat_inside this theta tr Hbs Hlen Hin); reflexivity).
      simpl snd.
      destruct (lnlike_appends_calls get_rvs this theta tr)
        as (evs & Hs & Hev).
      unfold call in Hs. exists evs. split; [exact Hs|].
      eapply Forall_impl; [|exact Hev].
      intros ev (i & c & -> & Hc).
      destruct (dataset_call_fields _ _ _ Hc)
        as (H0 & H1 & H2 & H3 & H4 & H5).
      simpl. repeat split;
        try (eapply strictly_inside_nth; eassumption).
      exists i. eapply strictly_inside_nth; eassumption.
    + apply (Hnone (Ok NegInf)). unfold call. apply lnprob_rejected.
      fold (call (flat theta) this tr).
      rewrite (flat_outside this theta tr Hbs Hlen Hout). reflexivity.
  - apply (Hnone (Raise IndexError)). unfold call. apply lnprob_raises.
    destruct (bounds_pairs_nth _ Hbs) as [Hl _].
    apply (@flat_raises_at this theta (bounds this) [] bs).
    + rewrite app_nil_r. reflexivity.
    + exact Hbs.
    + reflexivity.
    + lia.
    + apply in_bounds_beyond. lia.
Qed.

(** X11. With bounds that are pairs of numbers, every call of the orbit
    model that [lnprob] makes has its five orbital parameters and its
    systemic velocity strictly inside their bounds, for every theta of
    whatever length; [lnprob] prints nothing and leaves the estimator
    unchanged. *)
Theorem lnprob_calls_inside_bounds :
  forall get_rvs this theta bs tr,
    bounds_pairs (bounds this) = Some bs ->
    exists evs,
      snd (call (lnprob get_rvs theta) this tr) =
        {| self := this; trace := tr ++ evs |} /\
      forall ev, In ev evs ->
        exists c, ev = EvOrbit c /\
          inside_at bs 0 (log_k c) /\ inside_at bs 1 (log_period c) /\
          inside_at bs 2 (t0 c) /\ inside_at bs 3 (w c) /\
          inside_at bs 4 (log_e c) /\
          exists i, inside_at bs (5 + i) (vz c).
Proof.
  intros get_rvs this theta bs tr Hbs.
  destruct (lnprob_appends_inside get_rvs this theta Hbs tr)
    as (evs & Hs & Hev).
  exists evs. split; [exact Hs|].
  intros ev Hin. rewrite Forall_forall in Hev. specialize (Hev ev Hin).
  destruct ev as [c|line]; simpl in Hev.
  - exists c. split; [reflexivity | exact Hev].
  - contradiction.
Qed.

(** X11 on the example estimator at a theta inside the bounds: the one
    call has its [log_e] strictly inside [(-4, -4.3e-5)]. *)
Lemma lnprob_calls_inside_bounds_witness :
  exists evs,
    snd (call (lnprob constant_orbit [0; 0; 1; 1; -1; 0])
              example_estimator []) =
      {| self := example_estimator; trace := [] ++ evs |} /\
    forall ev, In ev evs ->
      exists c, ev = EvOrbit c /\ inside_at example_pairs 4 (log_e c).
Proof.
  destruct (@lnprob_calls_inside_bounds constant_orbit example_estimator
              [0; 0; 1; 1; -1; 0] example_pairs [] example_bounds_pairs)
    as (evs & Hs & Hev).
  exists evs. split; [exact Hs|].
  intros ev Hin. destruct (Hev ev Hin) as (c & Hc & _ & _ & _ & _ & He & _).
  exists c. split; [exact Hc | exact He].
Defined.

(** ** The MCMC driver *)

Lemma blind_if {A} (b : bool) (m1 m2 : M A) :
  trace_blind m1 -> trace_blind m2 -> trace_blind (if b then m1 else m2).
Proof. destruct b; auto. Qed.

Lemma blind_comprehension {A B} (l : list A) (f : A -> M B) :
  (forall a, trace_blind (f a)) -> trace_blind (comprehension l f).
Proof.
  intros Hf. induction l as [|a l IH]; simpl.
  - apply blind_ret.
  - apply blind_bind; [apply Hf|]. intros b.
    apply blind_bind; [exact IH|]. intros bs. apply blind_ret.
Qed.

Lemma blind_flat theta : trace_blind (flat theta).
Proof.
  unfold flat. apply blind_bind; [apply blind_get_self|]. intros this.
  apply blind_bind.
  - apply blind_comprehension. intros i. unfold in_bounds.
    repeat first
      [ apply blind_ret | apply blind_lift | apply blind_if
      | apply blind_bind; [|intro] ].
  - intros params. apply blind_if; apply blind_ret.
Qed.

Lemma blind_lnprob get_rvs theta : trace_blind (lnprob get_rvs theta).
Proof.
  unfold lnprob. apply blind_bind; [apply blind_flat|]. intros lp.
  apply blind_if; [apply blind_ret|].
  apply blind_bind; [apply blind_lnlike|]. intros l. apply blind_ret.
Qed.

(** [lnprob] from any state: the result it has on the object alone, and
    the object unchanged. *)
Lemma lnprob_run get_rvs theta s :
  fst (lnprob get_rvs theta s) = result_of (lnprob get_rvs theta) (self s) /\
  self (snd (lnprob get_rvs theta s)) = self s.
Proof.
  split.
  - unfold result_of, call.
    apply (blind_lnprob get_rvs theta s {| self := self s; trace := [] |}).
    reflexivity.
  - apply keeps_lnprob.
Qed.

Lemma run_sampling_lnprob get_rvs smp :
  forall s,
    fst (run_sampling (lnprob get_rvs) smp s) =
    sampling_result (fun theta => result_of (lnprob get_rvs theta) (self s))
                    smp.
Proof.
  induction smp as [chain|e|p next IH]; intros s; simpl.
  - reflexivity.
  - reflexivity.
  - unfold bind. destruct (lnprob_run get_rvs p s) as [Hr Hs].
    rewrite <- Hr.
    destruct (lnprob get_rvs p s) as [[v|e] s']; simpl in *.
    + rewrite IH, Hs. reflexivity.
    + reflexivity.
Qed.

Lemma nth_np_scale c a k :
  (k < length a)%nat -> nth k (np_scale c a) 0 = c * nth k a 0.
Proof. intros H. unfold np_scale. apply nth_map_R. exact H. Qed.

(** X13. [emcee_orbit] starts [nwalkers] walkers, each at the stored
    guess plus one hundredth of its own draws, entry by entry, and runs
    the sampler on them with the dimension [5 + n_datasets], the given
    thread and step counts, and [lnprob] as the log-probability: its
    result is the chain the sampler ends with when every evaluation is
    answered by [lnprob], or the first exception. *)
Theorem emcee_orbit_walkers :
  forall get_rvs randn run_mcmc this nwalkers nsteps nthreads tr,
    let ndim := (5 + n_datasets this)%Z in
    length (guess this) = Z.to_nat ndim ->
    (forall i, length (randn i ndim) = Z.to_nat ndim) ->
    let pos := walker_positions (guess this) (fun i => randn i ndim)
                                nwalkers in
    fst (call (emcee_orbit get_rvs randn run_mcmc nwalkers nsteps nthreads)
              this tr) =
      sampling_result (fun theta => result_of (lnprob get_rvs theta) this)
                      (run_mcmc nwalkers ndim nthreads pos nsteps) /\
    length pos = Z.to_nat nwalkers /\
    forall i j, (i < Z.to_nat nwalkers)%nat -> (j < length (guess this))%nat ->
      length (nth i pos []) = length (guess this) /\
      nth j (nth i pos []) 0 =
        nth j (guess this) 0 + 1e-2 * nth j (randn i ndim) 0.
Proof.
  intros get_rvs randn run_mcmc this nwalkers nsteps nthreads tr ndim
         Hg Hdraw pos.
  assert (Hrow : forall i,
            np.add (guess this) (np_scale 1e-2 (randn i ndim)) =
            Ok (zip_with Rplus (guess this) (np_scale 1e-2 (randn i ndim)))).
  { intros i. unfold np.add. apply binop_same_length.
    unfold np_scale. rewrite length_map, Hg, Hdraw. reflexivity. }
  split; [|split].
  - unfold call, emcee_orbit. unfold bind at 1. unfold get_self.
    cbn [self fst snd]. fold ndim. unfold bind.
    rewrite (@comprehension_pure_values _ _ _ _
               (fun i => zip_with Rplus (guess this)
                           (np_scale 1e-2 (randn i ndim)))).
    + fold (walker_positions (guess this) (fun i => randn i ndim) nwalkers).
      fold pos. rewrite run_sampling_lnprob. reflexivity.
    + intros i _. unfold lift. rewrite Hrow. reflexivity.
  - unfold pos, walker_positions, range. rewrite length_map, length_seq.
    reflexivity.
  - intros i j Hi Hj. unfold pos, walker_positions, range.
    rewrite (nth_indep _ []
               (zip_with Rplus (guess this) (np_scale 1e-2 (randn 0%nat ndim))))
      by (rewrite length_map, length_seq; exact Hi).
    rewrite (map_nth (fun i => zip_with Rplus (guess this)
                                  (np_scale 1e-2 (randn i ndim)))
                     (seq 0 (Z.to_nat nwalkers)) 0%nat i).
    rewrite seq_nth by exact Hi. simpl Nat.add.
    assert (Hl : length (guess this) = length (np_scale 1e-2 (randn i ndim)))
      by (unfold np_scale; rewrite length_map, Hg, Hdraw; reflexivity).
    split.
    + apply length_zip_with. exact Hl.
    + rewrite nth_zip_with by (try exact Hl; exact Hj).
      rewrite nth_np_scale by (rewrite Hdraw, <- Hg; exact Hj).
      reflexivity.
Qed.

(** X13 on the example estimator with two walkers and draws that are all
    one. *)
Lemma emcee_orbit_walkers_witness :
  fst (call (emcee_orbit constant_orbit (fun _ _ => [1; 1; 1; 1; 1; 1])
                         two_probes 2 10 1)
            example_estimator []) =
  sampling_result
    (fun theta => result_of (lnprob constant_orbit theta) example_estimator)
    (two_probes 2 6 1
       (walker_positions (guess example_estimator)
                         (fun _ => [1; 1; 1; 1; 1; 1]) 2) 10).
Proof.
  apply (@emcee_orbit_walkers constant_orbit (fun _ _ => [1; 1; 1; 1; 1; 1])
           two_probes example_estimator 2%Z 10%Z 1%Z []).
  - reflexivity.
  - intros i. reflexivity.
Defined.

(** ** What [ml_orbit] prints *)

Lemma nll_appends_calls get_rvs this theta :
  appends_on this is_orbit_call (nll get_rvs theta).
Proof.
  unfold nll. apply appends_on_bind; [|intros; apply appends_on_ret].
  eapply appends_on_weaken; [|apply lnlike_appends_calls].
  intros ev (i & c & -> & _). exact I.
Qed.

Lemma run_search_appends this P (f : list R -> M R) srch :
  (forall theta, appends_on this P (f theta)) ->
  appends_on this P (run_search f srch).
Proof.
  intros Hf. induction srch as [res|p next IH]; simpl.
  - apply appends_on_ret.
  - apply appends_on_bind; [apply Hf|]. intros v. apply IH.
Qed.

(** X14. [ml_orbit] reports after the search and only on request: the
    trace is the orbit calls of the evaluations, followed, when [disp]
    is [True] and the search returned, by exactly three lines that carry
    the iteration count, the success flag and the message of the
    minimiser's result; with [disp] false, or when an evaluation raised,
    nothing is printed. *)
Theorem ml_orbit_reports :
  forall get_rvs minimize this maxiter disp tr,
    exists evs,
      snd (call (ml_orbit get_rvs minimize maxiter disp) this tr) =
        {| self := this;
           trace :=
             tr ++ evs ++
             match search_result (objective get_rvs this)
                     (minimize (guess this) "TNC"%string (bounds this)
                               maxiter disp) with
             | Ok res =>
               if disp then
                 [EvPrint (IterationsPerformed (nit res));
                  EvPrint (MinimizationSuccessful (success res));
                  EvPrint (CauseOfTermination (message res))]
               else []
             | Raise _ => []
             end |} /\
      Forall is_orbit_call evs.
Proof.
  intros get_rvs minimize this maxiter disp tr.
  set (srch := minimize (guess this) "TNC"%string (bounds this) maxiter disp).
  destruct (@run_search_appends this is_orbit_call (nll get_rvs) srch
              (nll_appends_calls get_rvs this) tr) as (evs & Hs & Hev).
  destruct (run_search_nll get_rvs srch {| self := this; trace := tr |})
    as [Hr _].
  cbn [self] in Hr. unfold call in Hs.
  exists evs. split; [|exact Hev].
  unfold call, ml_orbit. unfold bind at 1. unfold get_self.
  cbn [self fst snd]. fold srch. unfold bind at 1.
  rewrite <- Hr.
  destruct (run_search (nll get_rvs) srch {| self := this; trace := tr |})
    as [[res|e] s']; simpl in Hs; subst s'; cbn [fst].
  - destruct disp.
    + unfold bind, emit, ret. simpl. rewrite <- !app_assoc. reflexivity.
    + unfold bind, ret. simpl. rewrite app_nil_r. reflexivity.
  - simpl. rewrite app_nil_r. reflexivity.
Qed.

(** ** What the constructor checks *)

(** X15. Construction succeeds exactly when the count is an integer
    [n >= 0], the guess has [5 + n] entries and, unless [n == 1],
    [bounds_vz] is a tuple.  The data arrays play no part in it: they
    are stored as given, whatever their number and lengths. *)
Theorem init_success_iff :
  forall t_ rv_ rv_err_ guess_ bounds_vz bounds_ nd,
    ((exists o, __init__ t_ rv_ rv_err_ guess_ bounds_vz bounds_ nd = Ok o)
     <->
     exists n,
       isinstance_int nd = Some n /\ (0 <= n)%Z /\
       Z.of_nat (length guess_) = (5 + n)%Z /\
       (n = 1%Z \/ exists items, bounds_vz = PyTuple items)) /\
    (forall o,
       __init__ t_ rv_ rv_err_ guess_ bounds_vz bounds_ nd = Ok o ->
       t o = t_ /\ rv o = rv_ /\ rv_err o = rv_err_ /\
       forall t' rv' rv_err',
         exists o',
           __init__ t' rv' rv_err' guess_ bounds_vz bounds_ nd = Ok o' /\
           t o' = t' /\ rv o' = rv' /\ rv_err o' = rv_err' /\
           n_datasets o' = n_datasets o /\ guess o' = guess o /\
           bounds o' = bounds o).
Proof.
  intros t_ rv_ rv_err_ guess_ bounds_vz bounds_ nd. split.
  - split.
    + intros [o Hok].
      destruct (init_ok_inv _ _ _ _ _ _ _ Hok)
        as (n & Hnd & Hn & Hlen & _ & _ & _ & _ & _ & Hb).
      exists n. split; [exact Hnd|]. split; [exact Hn|].
      split; [exact Hlen|].
      destruct Hb as [[H1 _]|[_ (items & Hvz & _)]];
        [left; exact H1 | right; exists items; exact Hvz].
    + intros (n & Hnd & Hn & Hlen & Hshape).
      destruct (Z.eq_dec n 1) as [H1|H1].
      * subst n. eexists. apply init_ok_single; [exact Hnd | lia].
      * destruct Hshape as [H|[items Hvz]]; [contradiction|]. subst bounds_vz.
        eexists. eapply init_ok_other; eassumption.
  - intros o Hok.
    destruct (init_ok_inv _ _ _ _ _ _ _ Hok)
      as (n & Hnd & Hn & Hlen & Hno & Ht & Hrv & Herr & Hg & Hb).
    split; [exact Ht|]. split; [exact Hrv|]. split; [exact Herr|].
    intros t' rv' rv_err'.
    destruct Hb as [[H1 Hb]|[H1 (items & Hvz & Hb)]].
    + rewrite H1 in Hnd, Hno, Hlen. eexists.
      split; [apply init_ok_single; [exact Hnd | lia]|].
      simpl. repeat split; congruence.
    + subst bounds_vz. eexists.
      split; [eapply init_ok_other; eassumption|].
      simpl. repeat split; congruence.
Qed.

(** X15 with two datasets announced and no data at all. *)
Lemma init_success_iff_witness :
  exists o,
    __init__ [] [] [] [0; 0; 1; 1; -1; 0; 0]
             (PyTuple [pair_of (-1, 1); pair_of (-1, 1)]) default_bounds
             (PyInt 2) = Ok o.
Proof.
  apply (proj2 (proj1 (@init_success_iff [] [] [] [0; 0; 1; 1; -1; 0; 0]
                         (PyTuple [pair_of (-1, 1); pair_of (-1, 1)])
                         default_bounds (PyInt 2)))).
  exists 2%Z. split; [reflexivity|]. split; [lia|]. split; [reflexivity|].
  right. eexists. reflexivity.
Defined.

(** X16. On an estimator that announces at least one dataset but holds
    no time array, [lnlike] raises [IndexError] for every theta before
    any call of the orbit model. *)
Theorem lnlike_without_data :
  forall get_rvs this theta tr,
    (0 < n_datasets this)%Z -> t this = [] ->
    call (lnlike get_rvs theta) this tr =
    (Raise IndexError, {| self := this; trace := tr |}).
Proof.
  intros get_rvs this theta tr HD Ht. rewrite lnlike_unfold.
  rewrite (@range_split (n_datasets this) 0) by lia. simpl.
  unfold dataset_call. rewrite Ht. simpl. rewrite app_nil_r. reflexivity.
Qed.

(** X16 on an estimator built with two datasets announced and no
    data. *)
Lemma lnlike_without_data_witness :
  call (lnlike constant_orbit [0; 0; 1; 1; -1; 0; 0])
       {| n_datasets := 2; t := []; rv := []; rv_err := [];
          guess := [0; 0; 1; 1; -1; 0; 0];
          bounds := default_bounds ++ [pair_of (-1, 1); pair_of (-1, 1)] |}
       [] =
  (Raise IndexError,
   {| self := {| n_datasets := 2; t := []; rv := []; rv_err := [];
                 guess := [0; 0; 1; 1; -1; 0; 0];
                 bounds := default_bounds
                           ++ [pair_of (-1, 1); pair_of (-1, 1)] |};
      trace := [] |}).
Proof.
  apply (@lnlike_without_data constant_orbit
           {| n_datasets := 2; t := []; rv := []; rv_err := [];
              guess := [0; 0; 1; 1; -1; 0; 0];
              bounds := default_bounds
                        ++ [pair_of (-1, 1); pair_of (-1, 1)] |}
           [0; 0; 1; 1; -1; 0; 0] []).
  - simpl. lia.
  - reflexivity.
Defined.

(** ** A bound that is empty *)

(** X17. A bound whose lower end is not below its upper end closes the
    prior: every theta that reaches its position gets [-inf] from
    [flat] and from [lnprob], and the orbit model is never called. *)
Theorem empty_bound_rejects_all :
  forall get_rvs this theta bs j b tr,
    bounds_pairs (bounds this) = Some bs ->
    (length theta <= length bs)%nat ->
    nth_error bs j = Some b -> snd b <= fst b ->
    (j < length theta)%nat ->
    call (flat theta) this tr =
      (Ok NegInf, {| self := this; trace := tr |}) /\
    call (lnprob get_rvs theta) this tr =
      (Ok NegInf, {| self := this; trace := tr |}).
Proof.
  intros get_rvs this theta bs j b tr Hbs Hlen Hb Hempty Hj.
  assert (Hout : ~ strictly_inside bs theta).
  { intros Hin.
    destruct (@strictly_inside_nth bs theta j (nth j theta 0) Hin)
      as (b' & Hb' & Hv).
    - apply nth_error_nth'. exact Hj.
    - rewrite Hb in Hb'. inversion Hb'; subst b'. lra. }
  assert (Hflat : call (flat theta) this tr =
                  (Ok NegInf, {| self := this; trace := tr |}))
    by (apply (flat_outside this theta tr Hbs Hlen Hout)).
  split; [exact Hflat|].
  unfold call. apply lnprob_rejected.
  fold (call (flat theta) this tr). rewrite Hflat. reflexivity.
Qed.

(** X17 on an estimator whose bound of [w] is given as [(360, 0)]. *)
Lemma empty_bound_rejects_all_witness :
  call (lnprob failing_orbit [0; 0; 1; 1; -1; 0])
       {| n_datasets := 1; t := [[0; 1]]; rv := [[1; 2]]; rv_err := [[1; 2]];
          guess := [0; 0; 1; 1; -1; 0];
          bounds := [pair_of (-4, 4); pair_of (-4, 4); pair_of (0, 10000);
                     pair_of (360, 0); pair_of (-4, -4.3e-5);
                     pair_of (-1, 1)] |} [] =
  (Ok NegInf,
   {| self :=
        {| n_datasets := 1; t := [[0; 1]]; rv := [[1; 2]];
           rv_err := [[1; 2]]; guess := [0; 0; 1; 1; -1; 0];
           bounds := [pair_of (-4, 4); pair_of (-4, 4); pair_of (0, 10000);
                      pair_of (360, 0); pair_of (-4, -4.3e-5);
                      pair_of (-1, 1)] |};
      trace := [] |}).
Proof.
  apply (@empty_bound_rejects_all failing_orbit _ [0; 0; 1; 1; -1; 0]
           [(-4, 4); (-4, 4); (0, 10000); (360, 0); (-4, -4.3e-5); (-1, 1)]
           3%nat (360, 0) []).
  - reflexivity.
  - simpl. lia.
  - reflexivity.
  - simpl. lra.
  - simpl. lia.
Defined.

(** ** [lnlike] in float64 *)

Lemma binop64_same_length op (a b : farray) :
  length a = length b ->
  binop64 op a b = Ok (map (fun p => op (fst p) (snd p)) (combine a b)).
Proof.
  intros H. unfold binop64. rewrite H, Nat.eqb_refl. reflexivity.
Qed.

(** The array pipeline of the loop body is the summand taken sample by
    sample. *)
Lemma pipeline64_terms np_log (rvi model erri : farray) :
  length rvi = length model -> length erri = length model ->
  map (fun p => PrimFloat.add (fst p) (snd p))
      (combine
         (map (fun p => PrimFloat.mul (fst p) (snd p))
              (combine
                 (square64 (map (fun p => PrimFloat.sub (fst p) (snd p))
                                (combine rvi model)))
                 (rdiv64 1 (square64 erri))))
         (map np_log (rdiv64 (PrimFloat.mul 2 np_pi64)
                             (rdiv64 1 (square64 erri))))) =
  gaussian_terms64 np_log rvi model erri.
Proof.
  revert model erri. induction rvi as [|a rvi IH]; intros model erri Hm He.
  - destruct model; [|discriminate]. destruct erri; [|discriminate].
    reflexivity.
  - destruct model as [|m model]; [discriminate|].
    destruct erri as [|e erri]; [discriminate|].
    simpl in Hm, He. injection Hm as Hm. injection He as He.
    specialize (IH model erri Hm He).
    unfold gaussian_terms64 in *. simpl. f_equal. exact IH.
Qed.

Lemma value64_terms np_log np_sum get_rvs64 this i c (model_i : farray) :
  (i < length (rv64 this))%nat -> (i < length (rv_err64 this))%nat ->
  get_rvs64 c = Ok model_i ->
  length (nth i (rv64 this) []) = length model_i ->
  length (nth i (rv_err64 this) []) = length model_i ->
  value64 np_log np_sum get_rvs64 this i c =
  Ok (np_sum (gaussian_terms64 np_log (nth i (rv64 this) []) model_i
                (nth i (rv_err64 this) []))).
Proof.
  intros Hrv Herr Hcall Hlrv Hlerr. unfold value64.
  rewrite Hcall. cbn [rbind].
  rewrite (getitem_nth (rv_err64 this) [] Herr). cbn [rbind].
  rewrite (getitem_nth (rv64 this) [] Hrv). cbn [rbind].
  set (rvi := nth i (rv64 this) []) in *.
  set (erri := nth i (rv_err64 this) []) in *.
  rewrite binop64_same_length by exact Hlrv. cbn [rbind].
  assert (L1 : length (map (fun p => PrimFloat.sub (fst p) (snd p))
                           (combine rvi model_i)) = length model_i).
  { rewrite length_map, length_combine, Hlrv. apply Nat.min_id. }
  assert (L2 : length (rdiv64 1 (square64 erri)) = length model_i).
  { unfold rdiv64, square64. rewrite !length_map. exact Hlerr. }
  assert (L3 : length (square64 (map (fun p => PrimFloat.sub (fst p) (snd p))
                                     (combine rvi model_i)))
               = length model_i).
  { unfold square64. rewrite length_map. exact L1. }
  rewrite binop64_same_length by congruence.
  cbn [rbind].
  rewrite binop64_same_length.
  - cbn [rbind]. rewrite pipeline64_terms by assumption. reflexivity.
  - rewrite length_map, length_combine, L3, L2, Nat.min_id.
    unfold rdiv64 at 1. rewrite !length_map. symmetry. exact L2.
Qed.

Lemma call64_spec this theta i :
  (5 + i < length theta)%nat -> (i < length (t64 this))%nat ->
  call64 this theta i = Ok (orbit_call_spec64 this theta i).
Proof.
  intros Hth Ht. unfold call64, orbit_call_spec64.
  rewrite (getitem_nth (t64 this) [] Ht). cbn [rbind].
  rewrite (getitem_nth theta 0%float (i := 0)) by lia. cbn [rbind].
  rewrite (getitem_nth theta 0%float (i := 1)) by lia. cbn [rbind].
  rewrite (getitem_nth theta 0%float (i := 2)) by lia. cbn [rbind].
  rewrite (getitem_nth theta 0%float (i := 3)) by lia. cbn [rbind].
  rewrite (getitem_nth theta 0%float (i := 4)) by lia. cbn [rbind].
  rewrite (getitem_nth theta 0%float (i := (5 + i)%nat)) by lia.
  reflexivity.
Qed.

(** The loop over datasets that all succeed. *)
Lemma loop64_ok np_log np_sum get_rvs64 this theta
    (cs : nat -> OrbitCall64) (vs : nat -> float) l :
  (forall j, In j l ->
     call64 this theta j = Ok (cs j) /\
     value64 np_log np_sum get_rvs64 this j (cs j) = Ok (vs j)) ->
  forall acc tr,
    loop64 np_log np_sum get_rvs64 this theta l acc tr =
    (Ok (fold_left PrimFloat.add (map vs l) acc), tr ++ map cs l).
Proof.
  induction l as [|i l IH]; intros H acc tr; simpl.
  - rewrite app_nil_r. reflexivity.
  - destruct (H i (or_introl eq_refl)) as [Hc Hv]. rewrite Hc, Hv.
    rewrite IH by (intros j Hj; apply H; right; exact Hj).
    rewrite <- app_assoc. reflexivity.
Qed.

(** C1, as stated, fails.  All inputs finite and the uncertainty
    positive, [lnlike] returns [-inf], which is no value of the stated
    formula: with [rv_err = 1e200] the square overflows to [inf],
    [inv_sigma2] is 0, the first summand is 0 and the logarithm is taken
    of [2 pi / 0 = inf]. *)
Lemma lnlike_real_formula_counterexample :
  lnlike64 log_exceptional sequential_sum constant_orbit64 huge_uncertainty
           [0; 0; 0; 0; 0; 0]%float [] =
    (Ok neg_infinity,
     [{| log_k64 := 0; log_period64 := 0; t0_64 := 0; w64 := 0;
         log_e64 := 0; vz64 := 0; ts64 := [0%float]; nt64 := 1 |}]) /\
  is_finite neg_infinity = false /\
  is_finite 0x1.4e718d7d7625ap+664%float = true /\
  PrimFloat.ltb 0 0x1.4e718d7d7625ap+664 = true.
Proof.
  split; [vm_compute; reflexivity|].
  split; [vm_compute; reflexivity|].
  split; vm_compute; reflexivity.
Qed.

(** The same run for every [log] and [sum] that keep [inf]: the finite
    values of the logarithm and the order of summation play no part. *)
Lemma lnlike64_overflow (np_log : float -> float) (np_sum : farray -> float) :
  np_log infinity = infinity -> np_sum [infinity] = infinity ->
  fst (lnlike64 np_log np_sum constant_orbit64 huge_uncertainty
                [0; 0; 0; 0; 0; 0]%float []) = Ok neg_infinity.
Proof.
  intros Hlog Hsum. vm_compute in Hlog, Hsum. vm_compute.
  rewrite Hlog. vm_compute. rewrite Hsum. reflexivity.
Qed.

(** C1, amended.  For theta of length [5 + D] and datasets of aligned
    float64 arrays, with an orbit model that returns arrays of the
    datasets' lengths, [lnlike] returns, in float64 and in the order the
    code computes it, [-0.5] times the sum over the datasets of [np.sum]
    of the summands
    [(rv - model)^2 * (1 / rv_err^2) + log(2 pi / (1 / rv_err^2))]
    (the stated formula in exact arithmetic); the model of dataset [i]
    is what the orbit model returns for [theta[0..4]], the times of the
    dataset and [theta[5+i]] as its systemic velocity, and these [D]
    calls are the only ones made. *)
Theorem lnlike64_formula :
  forall np_log np_sum get_rvs64 this theta (model : nat -> farray) tr,
    length theta = (5 + Z.to_nat (n_datasets64 this))%nat ->
    datasets64_ok this ->
    (forall i, (i < Z.to_nat (n_datasets64 this))%nat ->
       get_rvs64 (orbit_call_spec64 this theta i) = Ok (model i) /\
       length (model i) = length (nth i (t64 this) [])) ->
    lnlike64 np_log np_sum get_rvs64 this theta tr =
    (Ok (lnlike64_value np_log np_sum this model),
     tr ++ map (orbit_call_spec64 this theta) (range (n_datasets64 this))).
Proof.
  intros np_log np_sum get_rvs64 this theta model tr Hlen
         (Ht & Hrv & Herr & Hsets) Hmodel.
  unfold lnlike64.
  rewrite (@loop64_ok np_log np_sum get_rvs64 this theta
             (orbit_call_spec64 this theta)
             (fun i => np_sum (gaussian_terms64 np_log
                                 (nth i (rv64 this) []) (model i)
                                 (nth i (rv_err64 this) [])))).
  - reflexivity.
  - intros j Hj. unfold range in Hj. apply in_seq in Hj. simpl in Hj.
    destruct Hj as [_ Hj].
    destruct (Hsets j Hj) as (Hrvj & Herrj).
    destruct (Hmodel j Hj) as (Hcall & Hml).
    split.
    + apply call64_spec; lia.
    + apply value64_terms; try lia; try exact Hcall; congruence.
Qed.

(** C1 amended on the dataset with the huge uncertainty. *)
Lemma lnlike64_formula_witness :
  lnlike64 log_exceptional sequential_sum constant_orbit64 huge_uncertainty
           [0; 0; 0; 0; 0; 0]%float [] =
  (Ok (lnlike64_value log_exceptional sequential_sum huge_uncertainty
         (fun _ => [0%float])),
   [] ++ map (orbit_call_spec64 huge_uncertainty [0; 0; 0; 0; 0; 0]%float)
             (range (n_datasets64 huge_uncertainty))).
Proof.
  apply (@lnlike64_formula log_exceptional sequential_sum constant_orbit64
           huge_uncertainty [0; 0; 0; 0; 0; 0]%float (fun _ => [0%float]) []).
  - reflexivity.
  - unfold datasets64_ok. simpl.
    split; [reflexivity|]. split; [reflexivity|]. split; [reflexivity|].
    intros i Hi. destruct i as [|i]; [|lia]. simpl.
    split; reflexivity.
  - intros i Hi. simpl in Hi. destruct i as [|i]; [|lia].
    split; reflexivity.
Defined.

(** ** The calls of a sampling run, evaluation by evaluation *)

Lemma dataset_call_times this theta i c :
  dataset_call this theta i = Ok c -> nth_error (t this) i = Some (ts c).
Proof.
  unfold dataset_call.
  destruct (getitem (t this) i) as [ti|e] eqn:Et; cbn [rbind]; [|discriminate].
  destruct (getitem theta 0); cbn [rbind]; [|discriminate].
  destruct (getitem theta 1); cbn [rbind]; [|discriminate].
  destruct (getitem theta 2); cbn [rbind]; [|discriminate].
  destruct (getitem theta 3); cbn [rbind]; [|discriminate].
  destruct (getitem theta 4); cbn [rbind]; [|discriminate].
  destruct (getitem theta (5 + i)); cbn [rbind]; [|discriminate].
  intros H. injection H as <-. cbn [ts]. apply getitem_ok. exact Et.
Qed.

(** The calls of the loop over the datasets from [a] on are the calls
    built for the first [m] of them, in order. *)
Lemma lnlike_fold_prefix get_rvs this theta :
  forall n a acc, exists m,
    snd (lnlike_fold get_rvs this theta (seq a n) acc) =
      map (fun i => EvOrbit (call_built this theta i)) (seq a m) /\
    forall i, (a <= i < a + m)%nat ->
      dataset_call this theta i = Ok (call_built this theta i).
Proof.
  induction n as [|n IH]; intros a acc.
  - exists 0%nat. split; [reflexivity|]. intros i Hi. lia.
  - simpl. destruct (dataset_call this theta a) as [c|e] eqn:Ec.
    + assert (Hb : call_built this theta a = c)
        by (unfold call_built; rewrite Ec; reflexivity).
      destruct (dataset_value get_rvs this a c) as [v|e].
      * destruct (IH (S a) (acc + v)) as (m & Hev & Hcalls).
        destruct (lnlike_fold get_rvs this theta (seq (S a) n) (acc + v))
          as [r evs].
        simpl in Hev. exists (S m). split.
        -- simpl. rewrite Hb, Hev. reflexivity.
        -- intros i Hi. destruct (Nat.eq_dec i a) as [->|Hne].
           ++ rewrite Hb. exact Ec.
           ++ apply Hcalls. lia.
      * exists 1%nat. split.
        -- simpl. rewrite Hb. reflexivity.
        -- intros i Hi. assert (i = a) by lia. subst i.
           rewrite Hb. exact Ec.
    + exists 0%nat. split; [reflexivity|]. intros i Hi. lia.
Qed.

(** One evaluation of the posterior appends one block. *)
Lemma lnprob_block get_rvs this theta bs tr :
  bounds_pairs (bounds this) = Some bs ->
  exists block,
    snd (call (lnprob get_rvs theta) this tr) =
      {| self := this; trace := tr ++ block |} /\
    evaluation_block this bs block.
Proof.
  intros Hbs.
  assert (Hnone : forall r,
            call (lnprob get_rvs theta) this tr =
            (r, {| self := this; trace := tr |}) ->
            exists block,
              snd (call (lnprob get_rvs theta) this tr) =
              {| self := this; trace := tr ++ block |} /\
              evaluation_block this bs block).
  { intros r Hr. exists []. rewrite Hr, app_nil_r.
    split; [reflexivity|].
    exists (call_built this theta), 0%nat.
    split; [reflexivity|]. intros i Hi. lia. }
  destruct (Nat.le_gt_cases (length theta) (length bs)) as [Hlen|Hlen].
  - destruct (strictly_inside_dec_aux bs theta Hlen) as [Hin|Hout].
    + unfold call. rewrite lnprob_accepted
        by (fold (call (flat theta) this tr);
            rewrite (flat_inside this theta tr Hbs Hlen Hin); reflexivity).
      simpl snd. fold (call (lnlike get_rvs theta) this tr).
      rewrite lnlike_unfold. simpl snd. unfold range.
      destruct (lnlike_fold_prefix get_rvs this theta
                  (Z.to_nat (n_datasets this)) 0 0) as (m & Hev & Hcalls).
      rewrite Hev. eexists. split; [reflexivity|].
      exists (call_built this theta), m. split; [reflexivity|].
      intros i Hi.
      assert (Hc : dataset_call this theta i = Ok (call_built this theta i))
        by (apply Hcalls; lia).
      destruct (dataset_call_fields _ _ _ Hc)
        as (H0 & H1 & H2 & H3 & H4 & H5).
      split; [apply (dataset_call_times _ _ _ Hc)|].
      repeat split; eapply strictly_inside_nth; eassumption.
    + apply (Hnone (Ok NegInf)). unfold call. apply lnprob_rejected.
      fold (call (flat theta) this tr).
      rewrite (flat_outside this theta tr Hbs Hlen Hout). reflexivity.
  - apply (Hnone (Raise IndexError)). unfold call. apply lnprob_raises.
    destruct (bounds_pairs_nth _ Hbs) as [Hl _].
    apply (@flat_raises_at this theta (bounds this) [] bs).
    + rewrite app_nil_r. reflexivity.
    + exact Hbs.
    + reflexivity.
    + lia.
    + apply in_bounds_beyond. lia.
Qed.

Lemma blocks_pure {A} this (P : list Event -> Prop) (m : M A) :
  pure_m m -> appends_blocks this P m.
Proof.
  intros Hm tr. exists []. split; [|constructor].
  unfold call. rewrite Hm. simpl. rewrite app_nil_r. reflexivity.
Qed.

Lemma blocks_bind {A B} this P (m : M A) (k : A -> M B) :
  appends_blocks this P m -> (forall a, appends_blocks this P (k a)) ->
  appends_blocks this P (v <- m ;; k v).
Proof.
  intros Hm Hk tr. destruct (Hm tr) as (bl & Hs & HP).
  unfold call, bind in *.
  destruct (m {| self := this; trace := tr |}) as [[a|e] s']; simpl in Hs;
    subst s'.
  - destruct (Hk a (tr ++ concat bl)) as (bl' & Hs' & HP').
    unfold call in Hs'. exists (bl ++ bl'). split.
    + rewrite Hs', concat_app, app_assoc. reflexivity.
    + apply Forall_app. split; assumption.
  - exists bl. split; [reflexivity | exact HP].
Qed.

Lemma blocks_run_sampling this P (f : list R -> M pyfloat) smp :
  (forall theta, appends_blocks this P (f theta)) ->
  appends_blocks this P (run_sampling f smp).
Proof.
  intros Hf. induction smp as [chain|e|p next IH]; simpl.
  - apply blocks_pure, pure_ret.
  - apply blocks_pure, pure_lift.
  - apply blocks_bind; [apply Hf|]. intros v. apply IH.
Qed.

(** X12. Throughout a sampling run the orbit model is called only at
    parameters strictly inside the bounds: whatever the sampler, the
    draws and the walker count, the events of [emcee_orbit] fall into
    blocks, one for each evaluation of the posterior; in a block the
    [i]-th event is the orbit call for dataset [i], on the times of that
    dataset, with its five orbital parameters strictly inside bounds 0
    to 4 and its systemic velocity strictly inside bound [5 + i], the
    bound of that dataset's own offset.  Nothing is printed and the
    estimator is unchanged at the end. *)
Theorem emcee_orbit_calls_inside_bounds :
  forall get_rvs randn run_mcmc this nwalkers nsteps nthreads bs tr,
    bounds_pairs (bounds this) = Some bs ->
    exists blocks,
      snd (call (emcee_orbit get_rvs randn run_mcmc nwalkers nsteps nthreads)
                this tr) =
        {| self := this; trace := tr ++ concat blocks |} /\
      Forall (evaluation_block this bs) blocks.
Proof.
  intros get_rvs randn run_mcmc this nwalkers nsteps nthreads bs tr Hbs.
  unfold call, emcee_orbit. unfold bind at 1. unfold get_self.
  cbn [self fst snd].
  assert (Hrest : appends_blocks this (evaluation_block this bs)
            (pos <- comprehension (range nwalkers)
                      (fun i => lift (np.add (guess this)
                                  (np_scale 1e-2
                                     (randn i (5 + n_datasets this)%Z)))) ;;
             run_sampling (lnprob get_rvs)
               (run_mcmc nwalkers (5 + n_datasets this)%Z nthreads pos
                         nsteps))).
  { apply blocks_bind.
    - apply blocks_pure, pure_comprehension. intros i. apply pure_lift.
    - intros pos. apply blocks_run_sampling. intros theta tr'.
      destruct (lnprob_block get_rvs this theta tr' Hbs) as (block & Hs & Hb).
      exists [block]. split.
      + rewrite Hs. simpl. rewrite app_nil_r. reflexivity.
      + constructor; [exact Hb | constructor]. }
  exact (Hrest tr).
Qed.

(** X12 on the example estimator with two walkers, draws that are all
    zero and the sampler of two probes. *)
Lemma emcee_orbit_calls_inside_bounds_witness :
  exists blocks,
    snd (call (emcee_orbit constant_orbit (fun _ _ => [0; 0; 0; 0; 0; 0])
                           two_probes 2 10 1)
              example_estimator []) =
      {| self := example_estimator; trace := [] ++ concat blocks |} /\
    Forall (evaluation_block example_estimator example_pairs) blocks.
Proof.
  apply (@emcee_orbit_calls_inside_bounds constant_orbit
           (fun _ _ => [0; 0; 0; 0; 0; 0]) two_probes example_estimator
           2%Z 10%Z 1%Z example_pairs []).
  exact example_bounds_pairs.
Defined.
